(** * The file tools of the agency code agent: Edit, MultiEdit, NotebookEdit,
      NotebookRead, TodoWrite, Write, Read and LS

    A shallow embedding of [agency_code_agent/tools/*.py].  Every tool is a
    pydantic record with a [run] method that returns one string; the methods
    that touch the disk are modelled as functions from a file system to the
    returned string and the file system afterwards. *)

From Stdlib Require Import String Ascii PrimFloat Uint63 Sorted.
From stdpp Require Import gmap strings list pretty sorting.

#[local] Set Warnings "-register-all".
#[local] Open Scope string_scope.

(** ** Python's [str] methods used by the tools

    A Python string is a sequence of characters; here the characters are
    [ascii] and a [str] is a [string].  [find], [count] and [replace] are the
    built-in methods: matches are taken leftmost first and do not overlap, and
    the empty pattern matches before every character and at the end. *)
Module Str.

Fixpoint drop (n : nat) (s : string) : string :=
  match n, s with
  | S k, String _ s' => drop k s'
  | _, _ => s
  end.

Fixpoint take (n : nat) (s : string) : string :=
  match n, s with
  | S k, String c s' => String c (take k s')
  | _, _ => ""
  end.

(** [s.find(p)], with [None] for Python's [-1]. *)
Fixpoint find (p s : string) : option nat :=
  if String.prefix p s then Some 0
  else match s with
       | EmptyString => None
       | String _ s' => S <$> find p s'
       end.

(** [p in s]. *)
Fixpoint contains (p s : string) : bool :=
  String.prefix p s ||
  match s with
  | EmptyString => false
  | String _ s' => contains p s'
  end.

(** The scan of [s.count(p)] for a non-empty [p]: [skip] characters of the
    last match are still to be passed over. *)
Fixpoint count_from (p : string) (skip : nat) (s : string) : nat :=
  match s with
  | EmptyString => 0
  | String _ s' =>
      match skip with
      | S k => count_from p k s'
      | O => if String.prefix p s
             then S (count_from p (String.length p - 1) s')
             else count_from p 0 s'
      end
  end.

(** [s.count(p)]. *)
Definition count (p s : string) : nat :=
  match p with
  | EmptyString => S (String.length s)
  | _ => count_from p 0 s
  end.

Fixpoint replace_from (p r : string) (skip : nat) (s : string) : string :=
  match s with
  | EmptyString => ""
  | String c s' =>
      match skip with
      | S k => replace_from p r k s'
      | O => if String.prefix p s
             then r ++ replace_from p r (String.length p - 1) s'
             else String c (replace_from p r 0 s')
      end
  end.

Fixpoint interleave (r s : string) : string :=
  match s with
  | EmptyString => r
  | String c s' => r ++ String c (interleave r s')
  end.

(** [s.replace(p, r)]. *)
Definition replace (p r s : string) : string :=
  match p with
  | EmptyString => interleave r s
  | _ => replace_from p r 0 s
  end.

(** [s.replace(p, r, 1)]. *)
Fixpoint replace1 (p r s : string) : string :=
  if String.prefix p s then r ++ drop (String.length p) s
  else match s with
       | EmptyString => ""
       | String c s' => String c (replace1 p r s')
       end.

(** The offsets at which [p] matches in [s], overlapping matches included. *)
Fixpoint positions (p s : string) : list nat :=
  (if String.prefix p s then [0] else []) ++
  match s with
  | EmptyString => []
  | String _ s' => S <$> positions p s'
  end.


(** [s.split(sep)] for a one-character separator. *)
Fixpoint split (sep : ascii) (s : string) : list string :=
  match s with
  | EmptyString => [""]
  | String c s' =>
      if Ascii.eqb c sep then "" :: split sep s'
      else match split sep s' with
           | [] => [String c ""]
           | w :: ws => String c w :: ws
           end
  end.

(** [sep.join(l)]. *)
Fixpoint join (sep : string) (l : list string) : string :=
  match l with
  | [] => ""
  | [x] => x
  | x :: rest => x ++ sep ++ join sep rest
  end.

(** The line feed. *)
Definition newline : string := String "010" "".

(** [s.startswith(p)] and [s.endswith(p)]. *)
Definition startswith (s p : string) : bool := String.prefix p s.
Definition endswith (s p : string) : bool :=
  String.eqb (drop (String.length s - String.length p) s) p
  && Nat.leb (String.length p) (String.length s).

Definition lower_ascii (c : ascii) : ascii :=
  let n := nat_of_ascii c in
  if Nat.leb 65 n && Nat.leb n 90 then ascii_of_nat (n + 32) else c.

(** [s.lower()]. *)
Fixpoint lower (s : string) : string :=
  match s with
  | EmptyString => ""
  | String c s' => String (lower_ascii c) (lower s')
  end.

Definition upper_ascii (c : ascii) : ascii :=
  let n := nat_of_ascii c in
  if Nat.leb 97 n && Nat.leb n 122 then ascii_of_nat (n - 32) else c.

(** [s.upper()]. *)
Fixpoint upper (s : string) : string :=
  match s with
  | EmptyString => ""
  | String c s' => String (upper_ascii c) (upper s')
  end.

End Str.

(** ** The file system

    What the tools see of the operating system: a tree of directories and
    regular files, addressed by the list of names that leads from the root to
    a node (a path is taken resolved: no [.], no [..], no symbolic link, no
    trailing separator).  Every process may read and write everything (there
    is no [PermissionError]), a file holds decoded content of type [C], and
    the file system is changed by nobody else while a tool runs. *)
Module Fs.

Inductive node (C : Type) : Type :=
| File (data : C)
| Dir (entries : gmap string (node C)).
Arguments File {C} data.
Arguments Dir {C} entries.

(** A path string, as the operating system resolves it: whether it starts
    at the root, and the names on the way to its target. *)
Record path := Path { absolute : bool; names : list string }.

(** The text of a path, as an f-string prints it. *)
Definition show (p : path) : string :=
  (if absolute p then "/" else "") ++ Str.join "/" (names p).

(** [os.path.dirname]. *)
Definition dirname (p : path) : path :=
  {| absolute := absolute p; names := removelast (names p) |}.

Inductive oserror :=
| FileExistsError (p : path)
| NotADirectoryError (p : path)
| IsADirectoryError (p : path)
| FileNotFoundError (p : path).

(** [str(e)] of an [OSError]. *)
Definition strerror (e : oserror) : string :=
  match e with
  | FileExistsError p => "[Errno 17] File exists: '" ++ show p ++ "'"
  | NotADirectoryError p => "[Errno 20] Not a directory: '" ++ show p ++ "'"
  | IsADirectoryError p => "[Errno 21] Is a directory: '" ++ show p ++ "'"
  | FileNotFoundError p => "[Errno 2] No such file or directory: '" ++ show p ++ "'"
  end.

(** The file system: the entries of the root directory, and the writes of
    whole files done so far, latest last. *)
Record world (C : Type) := World {
  root : gmap string (node C);
  written : list (list string * C)
}.
Arguments World {C} root written.
Arguments root {C} w.
Arguments written {C} w.

Section Operations.
Context {C : Type}.

Fixpoint stat (n : node C) (p : list string) : option (node C) :=
  match p with
  | [] => Some n
  | x :: q =>
      match n with
      | Dir m => match m !! x with
                 | Some c => stat c q
                 | None => None
                 end
      | File _ => None
      end
  end.

Definition lookup (w : world C) (p : path) : option (node C) :=
  stat (Dir (root w)) (names p).

(** [os.path.exists], [os.path.isfile] and [os.path.isdir]. *)
Definition exists_ (w : world C) (p : path) : bool :=
  match lookup w p with Some _ => true | None => false end.
Definition isfile (w : world C) (p : path) : bool :=
  match lookup w p with Some (File _) => true | _ => false end.
Definition isdir (w : world C) (p : path) : bool :=
  match lookup w p with Some (Dir _) => true | _ => false end.

(** [open(p, 'r').read()]. *)
Definition read (w : world C) (p : path) : oserror + C :=
  match lookup w p with
  | Some (File c) => inr c
  | Some (Dir _) => inl (IsADirectoryError p)
  | None => inl (FileNotFoundError p)
  end.

(** A regular file stands on the way down the names of [p], or at [p]:
    no directory can be made or entered there. *)
Fixpoint blocked (n : node C) (p : list string) : bool :=
  match n with
  | File _ => true
  | Dir m =>
      match p with
      | [] => false
      | x :: q => match m !! x with
                  | Some k => blocked k q
                  | None => false
                  end
      end
  end.

(** The tree after [open(p, 'w').write(c)]: the file is replaced, or
    created in a directory that exists. *)
Fixpoint put (n : node C) (p : list string) (c : C) : option (node C) :=
  match p with
  | [] => match n with
          | File _ => Some (File c)
          | Dir _ => None
          end
  | x :: q =>
      match n with
      | File _ => None
      | Dir m =>
          match m !! x with
          | Some k => (fun k' => Dir (<[x := k']> m)) <$> put k q c
          | None => match q with
                    | [] => Some (Dir (<[x := File c]> m))
                    | _ :: _ => None
                    end
          end
      end
  end.

Definition write (w : world C) (p : path) (c : C) : oserror + world C :=
  match put (Dir (root w)) (names p) c with
  | Some (Dir m) => inr {| root := m; written := written w ++ [(names p, c)] |}
  | _ =>
      if isdir w p then inl (IsADirectoryError p)
      else if blocked (Dir (root w)) (names (dirname p))
      then inl (NotADirectoryError p)
      else inl (FileNotFoundError p)
  end.

(** The tree after [os.makedirs(p, exist_ok=True)]: the names of [p] that
    are missing become directories; [inl i] when the first [i] names of
    [p] lead to a regular file. *)
Fixpoint mkdirs (n : node C) (p : list string) : nat + node C :=
  match n with
  | File _ => inl 0
  | Dir m =>
      match p with
      | [] => inr n
      | x :: q =>
          match mkdirs (default (Dir ∅) (m !! x)) q with
          | inr k => inr (Dir (<[x := k]> m))
          | inl i => inl (S i)
          end
      end
  end.

(** [os.makedirs(p, exist_ok=True)].  When [p] itself is a regular file,
    [mkdir] finds it in the way; when a name above it is, [mkdir] of the
    name below that one fails. *)
Definition makedirs (w : world C) (p : path) : oserror + world C :=
  match mkdirs (Dir (root w)) (names p) with
  | inr (Dir m) => inr {| root := m; written := written w |}
  | inr (File _) => inl (FileExistsError p)
  | inl i =>
      if Nat.eqb i (length (names p)) then inl (FileExistsError p)
      else inl (NotADirectoryError
                  {| absolute := absolute p; names := take (S i) (names p) |})
  end.

End Operations.

End Fs.

(** ** Edit.py *)
Module Edit.
Import Fs.

Record tool := Tool {
  file_path : path;
  old_string : string;
  new_string : string;
  replace_all : bool
}.

(** The message of the [except Exception] handler. *)
Definition unhandled (t : tool) (e : oserror) : string :=
  "Error editing file '" ++ show (file_path t) ++ "': " ++ strerror e.

Definition run (t : tool) (w : world string) : string * world string :=
  (* Step 1: validate inputs *)
  if String.eqb (old_string t) (new_string t) then
    ("Error: old_string and new_string must be different", w)
  (* Step 2: the path is absolute *)
  else if negb (absolute (file_path t)) then
    ("Error: File path must be absolute, not relative. Received: "
       ++ show (file_path t), w)
  (* Step 3: the file exists *)
  else if negb (exists_ w (file_path t)) then
    ("Error: File '" ++ show (file_path t) ++ "' does not exist", w)
  (* Step 4: it is a file *)
  else if negb (isfile w (file_path t)) then
    ("Error: '" ++ show (file_path t) ++ "' is not a file", w)
  else
    (* Step 5: read file contents *)
    match read w (file_path t) with
    | inl e => (unhandled t e, w)
    | inr content =>
        (* Step 6: old_string exists in the file *)
        if negb (Str.contains (old_string t) content) then
          ("Error: String '" ++ old_string t ++ "' not found in file '"
             ++ show (file_path t) ++ "'", w)
        (* Step 7: uniqueness if not replace_all *)
        else if negb (replace_all t)
                && Nat.ltb 1 (Str.count (old_string t) content) then
          ("Error: String '" ++ old_string t ++ "' appears "
             ++ pretty (Str.count (old_string t) content)
             ++ " times in the file. Either provide a larger string with more context to make it unique, or use replace_all=True to change all instances.",
           w)
        else
          (* Step 8: perform replacement *)
          let new_content :=
            if replace_all t
            then Str.replace (old_string t) (new_string t) content
            else Str.replace1 (old_string t) (new_string t) content in
          let replacement_count :=
            if replace_all t then Str.count (old_string t) content else 1 in
          (* Step 9: write back to file *)
          match write w (file_path t) new_content with
          | inl e => (unhandled t e, w)
          | inr w' =>
              (* Step 10: success message *)
              if Nat.eqb replacement_count 1 then
                ("Successfully replaced 1 occurrence of the specified text in '"
                   ++ show (file_path t) ++ "'", w')
              else
                ("Successfully replaced " ++ pretty replacement_count
                   ++ " occurrences of the specified text in '"
                   ++ show (file_path t) ++ "'", w')
          end
    end.

End Edit.

(** ** MultiEdit.py *)
Module MultiEdit.
Import Fs.

Record EditOperation := Op {
  old_string : string;
  new_string : string;
  replace_all : bool
}.

Record tool := Tool {
  file_path : path;
  edits : list EditOperation
}.

Definition unhandled (t : tool) (e : oserror) : string :=
  "Error applying edits to file '" ++ show (file_path t) ++ "': " ++ strerror e.

(** Step 6, the loop that validates every edit on [validation_content];
    [i] is the index of [enumerate].  [inl] is the returned error. *)
Fixpoint validate (file_exists : bool) (i : nat) (es : list EditOperation)
    (validation_content : string) : string + string :=
  match es with
  | [] => inr validation_content
  | edit :: rest =>
      if String.eqb (old_string edit) (new_string edit) then
        inl ("Error in edit " ++ pretty (i + 1)
               ++ ": old_string and new_string must be different")
      else if negb file_exists && Nat.eqb i 0
              && String.eqb (old_string edit) "" then
        validate file_exists (S i) rest (new_string edit)
      else if negb (Str.contains (old_string edit) validation_content) then
        inl ("Error in edit " ++ pretty (i + 1) ++ ": String '"
               ++ old_string edit ++ "' not found in file content")
      else if negb (replace_all edit)
              && Nat.ltb 1 (Str.count (old_string edit) validation_content) then
        inl ("Error in edit " ++ pretty (i + 1) ++ ": String '"
               ++ old_string edit ++ "' appears "
               ++ pretty (Str.count (old_string edit) validation_content)
               ++ " times. Either provide a larger string with more context or use replace_all=True")
      else
        validate file_exists (S i) rest
          (if replace_all edit
           then Str.replace (old_string edit) (new_string edit) validation_content
           else Str.replace1 (old_string edit) (new_string edit) validation_content)
  end.

(** Step 7, the loop that applies the edits to [current_content] and
    collects [edit_results]. *)
Fixpoint apply (file_exists : bool) (i : nat) (es : list EditOperation)
    (current_content : string) (edit_results : list string)
    : string * list string :=
  match es with
  | [] => (current_content, edit_results)
  | edit :: rest =>
      if negb file_exists && Nat.eqb i 0
         && String.eqb (old_string edit) "" then
        apply file_exists (S i) rest (new_string edit)
          (edit_results ++ ["Edit " ++ pretty (i + 1)
                              ++ ": Created new file with content"])
      else if replace_all edit then
        apply file_exists (S i) rest
          (Str.replace (old_string edit) (new_string edit) current_content)
          (edit_results ++ ["Edit " ++ pretty (i + 1) ++ ": Replaced "
                              ++ pretty (Str.count (old_string edit) current_content)
                              ++ " occurrences"])
      else
        apply file_exists (S i) rest
          (Str.replace1 (old_string edit) (new_string edit) current_content)
          (edit_results ++ ["Edit " ++ pretty (i + 1) ++ ": Replaced 1 occurrence"])
  end.

Definition run (t : tool) (w : world string) : string * world string :=
  (* Step 1: the path is absolute *)
  if negb (absolute (file_path t)) then
    ("Error: File path must be absolute, not relative. Received: "
       ++ show (file_path t), w)
  else
  (* Step 2: the edits list *)
  match edits t with
  | [] => ("Error: At least one edit operation must be provided", w)
  | first :: _ =>
      (* Step 3 *)
      let file_exists := exists_ w (file_path t) in
      (* Step 4: a new file needs a first edit with an empty old_string; what
         exists must be a file *)
      if negb file_exists && negb (String.eqb (old_string first) "") then
        ("Error: File '" ++ show (file_path t)
           ++ "' does not exist. To create a new file, the first edit must have an empty old_string.", w)
      else if file_exists && negb (isfile w (file_path t)) then
        ("Error: '" ++ show (file_path t) ++ "' is not a file", w)
      else
        (* Step 5: initial content *)
        match (if file_exists then read w (file_path t) else inr "") with
        | inl e => (unhandled t e, w)
        | inr content =>
            (* Step 6 *)
            match validate file_exists 0 (edits t) content with
            | inl err => (err, w)
            | inr _ =>
                (* Step 7 *)
                let '(current_content, edit_results) :=
                  apply file_exists 0 (edits t) content [] in
                (* Step 8: write the final content *)
                match makedirs w (dirname (file_path t)) with
                | inl e => (unhandled t e, w)
                | inr w1 =>
                    match write w1 (file_path t) current_content with
                    | inl e => (unhandled t e, w1)
                    | inr w2 =>
                        (* Step 9 *)
                        (Str.join Str.newline
                           (("Successfully applied " ++ pretty (length (edits t))
                               ++ " edits to '" ++ show (file_path t) ++ "':")
                              :: edit_results), w2)
                    end
                end
            end
        end
  end.

End MultiEdit.

(** ** Notebook documents

    What [json.load] returns: [None], booleans, numbers, strings, lists and
    dicts.  A notebook is a dict; its ['cells'] entry, when there is one, is a
    list of dicts. *)
Module Json.

Inductive value : Type :=
| Null
| Bool (b : bool)
| Int (z : Z)
| Float (f : PrimFloat.float)
| Str (s : string)
| List (l : list value)
| Dict (d : gmap string value).

Abbreviation cell := (gmap string value).

Record document := Document {
  cells : option (list cell);
  others : gmap string value
}.

(** The content of a file that is opened as a notebook: text that
    [json.load] rejects, with the text of its [JSONDecodeError], or the
    document it returns.  What [json.dump] writes is kept as the document
    that [json.load] reads back from it. *)
Inductive content :=
| Invalid (msg : string)
| Doc (d : document).

Definition is_space (c : ascii) : bool :=
  let n := nat_of_ascii c in
  Nat.leb 9 n && Nat.leb n 13 || Nat.leb 28 n && Nat.leb n 32.

Definition digit (c : ascii) : option Z :=
  let n := nat_of_ascii c in
  if Nat.leb 48 n && Nat.leb n 57 then Some (Z.of_nat (n - 48)) else None.

Fixpoint lstrip (s : string) : string :=
  match s with
  | String c s' => if is_space c then lstrip s' else s
  | EmptyString => ""
  end.

Fixpoint rstrip (s : string) : string :=
  match s with
  | String c s' =>
      match rstrip s' with
      | EmptyString => if is_space c then "" else String c ""
      | r => String c r
      end
  | EmptyString => ""
  end.

Inductive seen := Nothing | Digit | Underscore.

(** The digits of an integer literal: single underscores are allowed
    between digits. *)
Fixpoint digits (acc : Z) (last : seen) (s : string) : option Z :=
  match s with
  | EmptyString => match last with Digit => Some acc | _ => None end
  | String c s' =>
      match digit c with
      | Some d => digits (acc * 10 + d) Digit s'
      | None =>
          if Ascii.eqb c "_"
          then match last with Digit => digits acc Underscore s' | _ => None end
          else None
      end
  end.

(** [int(s)], with [None] for [ValueError]. *)
Definition int (s : string) : option Z :=
  match rstrip (lstrip s) with
  | String "-" s' => Z.opp <$> digits 0 Nothing s'
  | String "+" s' => digits 0 Nothing s'
  | s' => digits 0 Nothing s'
  end.

(** [v == s] for a string [s]. *)
Definition is_str (v : value) (s : string) : bool :=
  match v with
  | Str x => String.eqb x s
  | _ => false
  end.

(** [cell.get('id') == cell_id]. *)
Definition has_id (c : cell) (cell_id : string) : bool :=
  match c !! "id" with
  | Some v => is_str v cell_id
  | None => false
  end.

Inductive kind := code | markdown.

Definition kind_name (k : kind) : string :=
  match k with code => "code" | markdown => "markdown" end.

End Json.

(** ** NotebookEdit.py *)
Module NotebookEdit.
Import Fs Json.

Inductive mode := replace | insert | delete.

Record tool := Tool {
  notebook_path : path;
  cell_id : option string;
  new_source : string;
  cell_type : option kind;
  edit_mode : mode
}.

(** The loop of [_format_source] over [enumerate(lines)], [n] being
    [len(lines)]. *)
Fixpoint format_lines (n i : nat) (lines : list string) : list string :=
  match lines with
  | [] => []
  | line :: rest =>
      if Nat.eqb i (n - 1) && String.eqb line "" then format_lines n (S i) rest
      else if Nat.eqb i (n - 1) then line :: format_lines n (S i) rest
      else (line ++ Str.newline) :: format_lines n (S i) rest
  end.

Definition _format_source (source_text : string) : list string :=
  if String.eqb source_text "" then []
  else let lines := Str.split "010" source_text in
       format_lines (length lines) 0 lines.

(** The search of Step 7 for the cell whose id is [cell_id]; [i] is the
    index of [enumerate]. *)
Fixpoint find_id (cid : string) (i : nat) (cs : list cell) : option nat :=
  match cs with
  | [] => None
  | c :: rest => if has_id c cid then Some i else find_id cid (S i) rest
  end.

(** The numeric reading of [cell_id], tried when no id matched. *)
Definition find_index (cid : string) (cs : list cell) : option nat :=
  match int cid with
  | Some cell_index =>
      if Z.leb 0 cell_index && Z.ltb cell_index (Z.of_nat (length cs))
      then Some (Z.to_nat cell_index)
      else None
  | None => None
  end.

(** Step 7: [target_index], or the error that is returned. *)
Definition target (t : tool) (cs : list cell) : string + nat :=
  match cell_id t with
  | Some (String _ _ as cid) =>
      match find_id cid 0 cs with
      | Some i => inr i
      | None =>
          match find_index cid cs with
          | Some i => inr i
          | None => inl ("Error: Cell with ID '" ++ cid ++ "' not found in notebook")
          end
      end
  | _ =>
      match edit_mode t, cs with
      | insert, _ => inr 0
      | _, _ :: _ => inr 0
      | _, [] => inl "Error: No cells in notebook and no cell_id specified"
      end
  end.

(** The cell that [insert] builds. *)
Definition new_cell (k : kind) (source : string) (n : nat) : cell :=
  let base : cell :=
    {[ "cell_type" := Str (kind_name k);
       "source" := List (Str <$> _format_source source);
       "metadata" := Dict ∅ ]} in
  let typed : cell :=
    match k with
    | code => <["outputs" := List []]> (<["execution_count" := Null]> base)
    | markdown => base
    end in
  <["id" := Str ("cell-" ++ pretty n)]> typed.

(** Where [insert] puts the new cell: after the cell of [cell_id], or at
    the beginning. *)
Definition insert_position (t : tool) (target_index : nat) : nat :=
  match cell_id t with
  | Some (String _ _) => target_index + 1
  | _ => 0
  end.

(** [d.setdefault(k, v)] and the cell that [replace] leaves. *)
Definition setdefault (k : string) (v : value) (d : cell) : cell :=
  match d !! k with Some _ => d | None => <[k := v]> d end.

Definition replaced (t : tool) (c : cell) : cell :=
  let c1 := <["source" := List (Str <$> _format_source (new_source t))]> c in
  match cell_type t with
  | Some k =>
      let old_type := default (Str "unknown") (c1 !! "cell_type") in
      let c2 := <["cell_type" := Str (kind_name k)]> c1 in
      match k with
      | code =>
          if is_str old_type "code" then c2
          else setdefault "outputs" (List []) (setdefault "execution_count" Null c2)
      | markdown =>
          if is_str old_type "code"
          then base.delete "outputs" (base.delete "execution_count" c2)
          else c2
      end
  | None => c1
  end.

Section Run.
(** [str] of a value that is not a string ([repr] for Python's own
    rendering of numbers, lists and dicts). *)
Variable repr : value -> string.

Definition str (v : value) : string :=
  match v with
  | Str s => s
  | Null => "None"
  | Bool true => "True"
  | Bool false => "False"
  | Int z => pretty z
  | _ => repr v
  end.

(** Step 8: the cells after the edit and the message, or the error. *)
Definition perform (t : tool) (cs : list cell) (target_index : nat)
    : string + (list cell * string) :=
  match edit_mode t with
  | delete =>
      match cs !! target_index with
      | None => inl "Error: Cannot delete cell - invalid index"
      | Some deleted_cell =>
          inr (base.delete target_index cs,
               "Successfully deleted cell " ++ pretty target_index ++ " ("
                 ++ str (default (Str "unknown") (deleted_cell !! "cell_type"))
                 ++ " type)")
      end
  | insert =>
      match cell_type t with
      | None => inl "Error: cell_type is required when edit_mode is 'insert'"
      | Some k =>
          inr ((take (insert_position t target_index) cs
                  ++ new_cell k (new_source t) (length cs)
                  :: drop (insert_position t target_index) cs)%list,
               "Successfully inserted new " ++ kind_name k
                 ++ " cell at position "
                 ++ pretty (insert_position t target_index))
      end
  | replace =>
      match cs !! target_index with
      | None => inl "Error: Cannot replace cell - invalid index"
      | Some c =>
          inr (<[target_index := replaced t c]> cs,
               "Successfully replaced cell " ++ pretty target_index ++ " content")
      end
  end.

Definition unhandled (t : tool) (e : oserror) : string :=
  "Error editing notebook file '" ++ show (notebook_path t) ++ "': "
    ++ strerror e.

Definition run (t : tool) (w : world content) : string * world content :=
  (* Step 1 *)
  if negb (absolute (notebook_path t)) then
    ("Error: Notebook path must be absolute, not relative. Received: "
       ++ show (notebook_path t), w)
  (* Step 2 *)
  else if negb (exists_ w (notebook_path t)) then
    ("Error: Notebook file '" ++ show (notebook_path t) ++ "' does not exist", w)
  (* Step 3 *)
  else if negb (isfile w (notebook_path t)) then
    ("Error: '" ++ show (notebook_path t) ++ "' is not a file", w)
  else if negb (Str.endswith (Str.lower (show (notebook_path t))) ".ipynb") then
    ("Error: File '" ++ show (notebook_path t)
       ++ "' is not a Jupyter notebook (.ipynb) file", w)
  (* Step 4 *)
  else if match edit_mode t, cell_type t with
          | insert, None => true
          | _, _ => false
          end then
    ("Error: cell_type is required when edit_mode is 'insert'", w)
  else
    (* Step 5 *)
    match read w (notebook_path t) with
    | inl e => (unhandled t e, w)
    | inr (Invalid msg) =>
        ("Error: Invalid JSON in notebook file '" ++ show (notebook_path t)
           ++ "': " ++ msg, w)
    | inr (Doc notebook_data) =>
        (* Step 6 *)
        match cells notebook_data with
        | None =>
            ("Error: Invalid notebook format - no 'cells' found in '"
               ++ show (notebook_path t) ++ "'", w)
        | Some cs =>
            (* Step 7 *)
            match target t cs with
            | inl err => (err, w)
            | inr target_index =>
                (* Step 8 *)
                match perform t cs target_index with
                | inl err => (err, w)
                | inr (cs', result_message) =>
                    (* Step 9 *)
                    match write w (notebook_path t)
                            (Doc {| cells := Some cs';
                                    others := others notebook_data |}) with
                    | inl e => (unhandled t e, w)
                    | inr w' => (result_message, w')
                    end
                end
            end
        end
    end.

End Run.

End NotebookEdit.

(** ** NotebookRead.py *)
Module NotebookRead.
Import Fs Json.

Record tool := Tool {
  notebook_path : path;
  cell_id : option string
}.

(** Step 6, the loop over [cells] that looks for [target_cell]: in each
    round the id of the cell at hand is compared first, and then [cell_id]
    is tried as an index into the whole list [all]. *)
Fixpoint find_cell (cid : string) (all cs : list cell) : option cell :=
  match cs with
  | [] => None
  | c :: rest =>
      if has_id c cid then Some c
      else match int cid with
           | Some cell_index =>
               if Z.leb 0 cell_index && Z.ltb cell_index (Z.of_nat (length all))
               then all !! Z.to_nat cell_index
               else find_cell cid all rest
           | None => find_cell cid all rest
           end
  end.

Section Run.
(** [_format_cell], the rendering of one cell under a label. *)
Variable _format_cell : cell -> string -> string.

(** Step 7, the loop that renders every cell. *)
Fixpoint format_all (i : nat) (cs : list cell) : list string :=
  match cs with
  | [] => []
  | c :: rest => _format_cell c (pretty i) :: "" :: format_all (S i) rest
  end.

Definition unhandled (t : tool) (e : oserror) : string :=
  "Error reading notebook file '" ++ show (notebook_path t) ++ "': "
    ++ strerror e.

Definition run (t : tool) (w : world content) : string :=
  (* Step 1 *)
  if negb (absolute (notebook_path t)) then
    "Error: Notebook path must be absolute, not relative. Received: "
      ++ show (notebook_path t)
  (* Step 2 *)
  else if negb (exists_ w (notebook_path t)) then
    "Error: Notebook file '" ++ show (notebook_path t) ++ "' does not exist"
  (* Step 3 *)
  else if negb (isfile w (notebook_path t)) then
    "Error: '" ++ show (notebook_path t) ++ "' is not a file"
  else if negb (Str.endswith (Str.lower (show (notebook_path t))) ".ipynb") then
    "Error: File '" ++ show (notebook_path t)
      ++ "' is not a Jupyter notebook (.ipynb) file"
  else
    (* Step 4 *)
    match read w (notebook_path t) with
    | inl e => unhandled t e
    | inr (Invalid msg) =>
        "Error: Invalid JSON in notebook file '" ++ show (notebook_path t)
          ++ "': " ++ msg
    | inr (Doc notebook_data) =>
        (* Step 5 *)
        match cells notebook_data with
        | None =>
            "Error: Invalid notebook format - no 'cells' found in '"
              ++ show (notebook_path t) ++ "'"
        | Some cs =>
            match cell_id t with
            | Some (String _ _ as cid) =>
                (* Step 6 *)
                match find_cell cid cs cs with
                | None => "Error: Cell with ID '" ++ cid ++ "' not found in notebook"
                | Some target_cell => _format_cell target_cell cid
                end
            | _ =>
                (* Step 7 *)
                Str.join Str.newline
                  (("Jupyter Notebook: " ++ show (notebook_path t))
                     :: ("Total cells: " ++ pretty (length cs) ++ Str.newline)
                     :: format_all 0 cs)
            end
        end
    end.

End Run.

End NotebookRead.

(** ** TodoWrite.py *)
Module TodoWrite.

Inductive status := pending | in_progress | completed.
Inductive priority := high | medium | low.

Record TodoItem := Item {
  content : string;
  item_status : status;
  item_priority : priority;
  id : string
}.

Record tool := Tool { todos : list TodoItem }.

Definition status_eqb (a b : status) : bool :=
  match a, b with
  | pending, pending | in_progress, in_progress | completed, completed => true
  | _, _ => false
  end.

(** The dict [status_counts], a counter for each of the three keys. *)
Definition counts := status -> nat.

Definition increment (s : status) (c : counts) : counts :=
  fun k => if status_eqb k s then S (c k) else c k.

(** Step 3. *)
Definition status_counts (l : list TodoItem) : counts :=
  foldl (fun c todo => increment (item_status todo) c) (fun _ => 0) l.

Definition with_status (s : status) (l : list TodoItem) : list TodoItem :=
  filter (fun todo => status_eqb (item_status todo) s = true) l.

(** The string of a status. *)
Definition status_name (s : status) : string :=
  match s with
  | pending => "pending"
  | in_progress => "in_progress"
  | completed => "completed"
  end.

(** [status.upper().replace('_', ' ')]. *)
Definition heading (s : status) : string :=
  Str.replace "_" " " (Str.upper (status_name s)).

Definition status_symbols (s : status) : string :=
  match s with
  | pending => "⏳"
  | in_progress => "🔄"
  | completed => "✅"
  end.

Definition priority_indicator (p : priority) : string :=
  match p with
  | high => "🔴"
  | medium => "🟡"
  | low => "🟢"
  end.

Definition priority_order (p : priority) : nat :=
  match p with high => 1 | medium => 2 | low => 3 end.

(** [list.sort(key=...)] on the priority: a stable sort. *)
Fixpoint insert_sorted (x : TodoItem) (l : list TodoItem) : list TodoItem :=
  match l with
  | [] => [x]
  | y :: rest =>
      if Nat.leb (priority_order (item_priority x)) (priority_order (item_priority y))
      then x :: l
      else y :: insert_sorted x rest
  end.

Definition sort (l : list TodoItem) : list TodoItem := foldr insert_sorted [] l.

(** Step 5, the lines of one status group. *)
Definition group (s : status) (l : list TodoItem) : list string :=
  match with_status s l with
  | [] => []
  | status_todos =>
      (heading s ++ " (" ++ pretty (length status_todos) ++ "):")
        :: ((fun todo => "  " ++ status_symbols (item_status todo) ++ " [" ++ id todo
                           ++ "] " ++ priority_indicator (item_priority todo)
                           ++ " " ++ content todo) <$> sort status_todos)
        ++ [""]
  end.

Definition float_of_nat (n : nat) : float :=
  PrimFloat.of_uint63 (Uint63.of_Z (Z.of_nat n)).

(** [completed_todos / total_todos * 100] in floating point. *)
Definition progress_percentage (completed_todos total_todos : nat) : float :=
  if Nat.ltb 0 total_todos
  then PrimFloat.mul (PrimFloat.div (float_of_nat completed_todos)
                                    (float_of_nat total_todos))
                     (float_of_nat 100)
  else float_of_nat 0.

Fixpoint floor_below (k : nat) (x : float) : nat :=
  match k with
  | O => O
  | S k' => if PrimFloat.leb (float_of_nat k) x then k else floor_below k' x
  end.

(** The format [:.0f] of a float between 0 and 100: the nearest integer,
    the even one at a tie. *)
Definition format_0f (x : float) : string :=
  let k := floor_below 100 x in
  let fraction := PrimFloat.sub x (float_of_nat k) in
  let half := PrimFloat.div (float_of_nat 1) (float_of_nat 2) in
  if PrimFloat.ltb fraction half then pretty k
  else if PrimFloat.ltb half fraction then pretty (S k)
  else if Nat.even k then pretty k else pretty (S k).

(** Step 7, the suggestion of the next action. *)
Definition next_action (l : list TodoItem) : string :=
  match with_status in_progress l, sort (with_status pending l) with
  | current_task :: _, _ => "CURRENT FOCUS: " ++ content current_task
  | [], next_task :: _ => "NEXT UP: " ++ content next_task
  | [], [] => "🎉 All tasks completed!"
  end.

Definition run (t : tool) : string :=
  (* Step 1 *)
  match todos t with
  | [] => "Error: Todo list cannot be empty"
  | _ :: _ =>
      (* Step 2 *)
      let ids := id <$> todos t in
      if negb (Nat.eqb (length ids) (length (remove_dups ids))) then
        "Error: All todo items must have unique IDs"
      (* Step 4 *)
      else if Nat.ltb 1 (status_counts (todos t) in_progress) then
        "Warning: Multiple tasks marked as in_progress. Recommended to have only one task in_progress at a time:"
          ++ Str.newline
          ++ Str.join Str.newline
               ((fun item => "- " ++ item)
                  <$> (content <$> with_status in_progress (todos t)))
      else
        (* Steps 5 to 7 *)
        Str.join Str.newline
          (("=== TODO LIST ===" ++ Str.newline)
             :: group in_progress (todos t)
             ++ group pending (todos t)
             ++ group completed (todos t)
             ++ [ "PROGRESS: " ++ pretty (status_counts (todos t) completed) ++ "/"
                    ++ pretty (length (todos t)) ++ " completed ("
                    ++ format_0f (progress_percentage
                                    (status_counts (todos t) completed)
                                    (length (todos t)))
                    ++ "%)";
                  next_action (todos t) ])
  end.

End TodoWrite.

(** ** Write.py *)
Module Write.
Import Fs.

Record tool := Tool {
  file_path : path;
  content : string
}.

(** The [errno] of the errors of the file system. *)
Definition errno (e : oserror) : nat :=
  match e with
  | FileNotFoundError _ => 2
  | FileExistsError _ => 17
  | NotADirectoryError _ => 20
  | IsADirectoryError _ => 21
  end.

(** The handler of [OSError]; every error of the file system is one. *)
Definition os_error (t : tool) (e : oserror) : string :=
  if Nat.eqb (errno e) 36
  then "Error: File path too long: '" ++ show (file_path t) ++ "'"
  else "Error: OS error writing file '" ++ show (file_path t) ++ "': "
         ++ strerror e.

(** [os.path.getsize], in characters of the content. *)
Definition getsize (w : world string) (p : path) : oserror + nat :=
  match read w p with
  | inr c => inr (String.length c)
  | inl e => inl e
  end.

(** The line that Step 3 prints. *)
Definition warning : string :=
  "Warning: When overwriting existing files, you should use the Read tool first to understand the file contents.".

(** [run]: the returned string, the lines printed, and the file system
    afterwards. *)
Definition run (t : tool) (w : world string) : string * list string * world string :=
  (* Step 1 *)
  if negb (absolute (file_path t)) then
    ("Error: File path must be absolute, not relative. Received: "
       ++ show (file_path t), [], w)
  else
    (* Step 2 *)
    let file_exists := exists_ w (file_path t) in
    (* Step 3 *)
    if file_exists && negb (isfile w (file_path t)) then
      ("Error: '" ++ show (file_path t)
         ++ "' exists but is not a file (might be a directory)", [], w)
    else
      let printed := if file_exists then [warning] else [] in
      (* Step 4 *)
      let directory := dirname (file_path t) in
      match (if negb (String.eqb (show directory) "") && negb (exists_ w directory)
             then makedirs w directory else inr w) with
      | inl e => (os_error t e, printed, w)
      | inr w1 =>
          (* Step 5 *)
          match write w1 (file_path t) (content t) with
          | inl e => (os_error t e, printed, w1)
          | inr w2 =>
              (* Step 6 *)
              match getsize w2 (file_path t) with
              | inl e => (os_error t e, printed, w2)
              | inr file_size =>
                  (* Step 7 *)
                  if file_exists then
                    ("Successfully overwrote file '" ++ show (file_path t)
                       ++ "' (" ++ pretty file_size ++ " bytes)", printed, w2)
                  else
                    ("Successfully created file '" ++ show (file_path t)
                       ++ "' (" ++ pretty file_size ++ " bytes)", printed, w2)
              end
          end
      end.

End Write.

(** ** Read.py *)
Module Read.
Import Fs.

Record tool := Tool {
  file_path : path;
  offset : option Z;
  limit : option Z
}.

(** [file.readlines()]: the lines of a text, each with the line feed that
    ends it. *)
Fixpoint readlines (s : string) : list string :=
  match s with
  | EmptyString => []
  | String c s' =>
      if Ascii.eqb c "010" then String c "" :: readlines s'
      else match readlines s' with
           | [] => [String c ""]
           | line :: rest => String c line :: rest
           end
  end.

(** Where the bound [i] of a slice falls in a list of length [n]: a negative
    bound counts from the end, and bounds outside the list are clipped. *)
Definition bound (n : nat) (i : Z) : nat :=
  if Z.ltb i 0 then Z.to_nat (Z.max 0 (i + Z.of_nat n))
  else Z.to_nat (Z.min i (Z.of_nat n)).

(** [l[a:b]]. *)
Definition slice {A : Type} (l : list A) (a b : Z) : list A :=
  take (bound (length l) b - bound (length l) a) (drop (bound (length l) a) l).

(** Whether an optional integer counts as true. *)
Definition given (o : option Z) : bool :=
  match o with
  | Some z => negb (Z.eqb z 0)
  | None => false
  end.

(** [line.rstrip('\n\r')]. *)
Fixpoint rstrip_newlines (s : string) : string :=
  match s with
  | EmptyString => ""
  | String c s' =>
      match rstrip_newlines s' with
      | EmptyString =>
          if Ascii.eqb c "010" || Ascii.eqb c "013" then "" else String c ""
      | r => String c r
      end
  end.

(** The format [:>6]: right-aligned in six characters. *)
Definition rjust6 (s : string) : string :=
  Str.join "" (replicate (6 - String.length s) " ") ++ s.

(** Step 6: the line index to start from. *)
Definition start_line (t : tool) : Z :=
  let start := match offset t with
               | Some o => if Z.eqb o 0 then 0%Z else (o - 1)%Z
               | None => 0%Z
               end in
  if Z.ltb start 0 then 0%Z else start.

Definition selected_lines (t : tool) (lines : list string) : list string :=
  match limit t with
  | Some l =>
      if Z.eqb l 0
      then slice lines (start_line t)
             (Z.min (start_line t + 2000) (Z.of_nat (length lines)))
      else slice lines (start_line t) (start_line t + l)
  | None =>
      slice lines (start_line t)
        (Z.min (start_line t + 2000) (Z.of_nat (length lines)))
  end.

(** Step 7: one line of the output. *)
Definition numbered (line_num : Z) (line : string) : string :=
  let line_content :=
    if Nat.ltb 2000 (String.length line)
    then Str.take 2000 line ++ "... [line truncated]"
    else rstrip_newlines line in
  rjust6 (pretty line_num) ++ "|" ++ line_content.

Fixpoint output_lines (start : Z) (i : nat) (selected : list string) : list string :=
  match selected with
  | [] => []
  | line :: rest =>
      numbered (start + Z.of_nat i + 1) line :: output_lines start (S i) rest
  end.

(** Step 8. *)
Definition header (t : tool) (total_lines shown : nat) : string :=
  if given (offset t) || given (limit t) then
    "File: " ++ show (file_path t) ++ " (showing lines "
      ++ pretty (start_line t + 1)%Z ++ "-"
      ++ pretty (start_line t + Z.of_nat shown)%Z ++ " of "
      ++ pretty total_lines ++ ")" ++ Str.newline
  else if Nat.ltb shown total_lines then
    "File: " ++ show (file_path t) ++ " (showing first " ++ pretty shown
      ++ " lines of " ++ pretty total_lines ++ ")" ++ Str.newline
  else
    "File: " ++ show (file_path t) ++ " (" ++ pretty total_lines ++ " lines)"
      ++ Str.newline.

Definition unhandled (t : tool) (e : oserror) : string :=
  "Error reading file '" ++ show (file_path t) ++ "': " ++ strerror e.

Definition run (t : tool) (w : world string) : string :=
  (* Step 1 *)
  if negb (absolute (file_path t)) then
    "Error: File path must be absolute, not relative. Received: "
      ++ show (file_path t)
  (* Step 2 *)
  else if negb (exists_ w (file_path t)) then
    "Error: File '" ++ show (file_path t) ++ "' does not exist"
  (* Step 3 *)
  else if negb (isfile w (file_path t)) then
    "Error: '" ++ show (file_path t) ++ "' is not a file"
  else
    (* Step 4 *)
    match read w (file_path t) with
    | inl e => unhandled t e
    | inr text =>
        let lines := readlines text in
        (* Step 5 *)
        match lines with
        | [] => "File is empty."
        | _ :: _ =>
            (* Steps 6 to 8 *)
            let selected := selected_lines t lines in
            header t (length lines) (length selected)
              ++ Str.join Str.newline (output_lines (start_line t) 0 selected)
        end
    end.

End Read.

(** ** LS.py *)
Module LS.
Import Fs.

Record tool := Tool {
  path : Fs.path;
  ignore : option (list string)
}.

(** [os.listdir]: the names in a directory, in an order that the system
    chooses. *)
Definition listdir (w : world string) (p : Fs.path) : list string :=
  match lookup w p with
  | Some (Dir m) => (map_to_list m).*1
  | _ => []
  end.

(** [os.path.join(p, entry)]. *)
Definition join (p : Fs.path) (entry : string) : Fs.path :=
  {| absolute := absolute p; names := names p ++ [entry] |}.

(** [list.sort()] on strings: by insertion, in the order of the
    characters' codes. *)
Fixpoint insert_sorted (x : string) (l : list string) : list string :=
  match l with
  | [] => [x]
  | y :: rest =>
      if String.leb x y then x :: y :: rest else y :: insert_sorted x rest
  end.

Fixpoint sort (l : list string) : list string :=
  match l with
  | [] => []
  | x :: rest => insert_sorted x (sort rest)
  end.

(** The order that [list.sort()] puts strings in. *)
Definition le (a b : string) : Prop := String.leb a b = true.

Section Run.

(** [glob.fnmatch.fnmatch(name, pattern)]. *)
Variable fnmatch : string -> string -> bool.

(** Step 5, the loop over the patterns for one entry. *)
Definition should_ignore (t : tool) (patterns : list string) (entry : string) : bool :=
  existsb (fun pattern =>
             fnmatch entry pattern
             || fnmatch (show (join (path t) entry)) pattern) patterns.

(** Step 5. *)
Definition filtered_entries (t : tool) (entries : list string) : list string :=
  match ignore t with
  | Some ((_ :: _) as patterns) =>
      List.filter (fun entry => negb (should_ignore t patterns entry)) entries
  | _ => entries
  end.

(** Step 6. *)
Definition directories (t : tool) (w : world string) (entries : list string)
    : list string :=
  sort (List.filter (fun entry => isdir w (join (path t) entry)) entries).

Definition files (t : tool) (w : world string) (entries : list string)
    : list string :=
  sort (List.filter (fun entry => negb (isdir w (join (path t) entry))) entries).

(** Steps 5 to 8 on the entries that [os.listdir] gave. *)
Definition output_lines (t : tool) (w : world string) (entries : list string)
    : list string :=
  let entries := filtered_entries t entries in
  let directories := directories t w entries in
  let files := files t w entries in
  (* Step 7 *)
  ["Contents of '" ++ show (path t) ++ "':" ++ Str.newline]
    ++ (match directories, files with
        | [], [] => ["(empty directory)"]
        | _, _ =>
            ((fun directory => "  " ++ directory ++ "/") <$> directories)
              ++ ((fun file => "  " ++ file) <$> files)
        end)
    (* Step 8 *)
    ++ (if Nat.ltb 0 (length directories + length files)
        then [Str.newline ++ "Total: " ++ pretty (length directories)
                ++ " directories, " ++ pretty (length files) ++ " files"]
        else []).

Definition run (t : tool) (w : world string) : string :=
  (* Step 1 *)
  if negb (absolute (path t)) then
    "Error: Path must be absolute, not relative. Received: " ++ show (path t)
  (* Step 2 *)
  else if negb (exists_ w (path t)) then
    "Error: Path '" ++ show (path t) ++ "' does not exist"
  (* Step 3 *)
  else if negb (isdir w (path t)) then
    "Error: Path '" ++ show (path t) ++ "' is not a directory"
  else
    Str.join Str.newline (output_lines t w (listdir w (path t))).

End Run.

End LS.

(** ** Notions of the statements *)

(** A response that reports a failure starts with [Error]. *)
Definition failed (response : string) : bool := String.prefix "Error" response.

(** What a sequence of edit operations does to a content, and when an
    operation cannot be applied to it. *)
Module Sequence.
Import MultiEdit.

Definition step (e : EditOperation) (c : string) : string :=
  if replace_all e
  then Str.replace (old_string e) (new_string e) c
  else Str.replace1 (old_string e) (new_string e) c.



End Sequence.


(** The file of the scenario in the test of Edit.py, before and after
    [Hello World] is replaced everywhere by [Hi Universe]. *)
Definition scenario_before : string :=
  "Hello World" ++ Str.newline ++ "This is a test file" ++ Str.newline ++ "Hello World again".
Definition scenario_after : string :=
  "Hi Universe" ++ Str.newline ++ "This is a test file" ++ Str.newline ++ "Hi Universe again".

(** A notebook of two cells in which the id of the second cell reads as the
    position of the first, and one whose only cell carries an id of the form
    that [insert] hands out. *)
Definition cell_a : Json.cell :=
  {[ "id" := Json.Str "a"; "cell_type" := Json.Str "markdown";
     "source" := Json.List [Json.Str "# Title"]; "metadata" := Json.Dict ∅ ]}.
Definition cell_0 : Json.cell :=
  {[ "id" := Json.Str "0"; "cell_type" := Json.Str "markdown";
     "source" := Json.List [Json.Str "text"]; "metadata" := Json.Dict ∅ ]}.
Definition notebook_path : Fs.path := Fs.Path true ["nb.ipynb"].

(** A todo list with two tasks in progress. *)
Definition two_in_progress : list TodoWrite.TodoItem :=
  [ TodoWrite.Item "Write the parser" TodoWrite.in_progress TodoWrite.high "1";
    TodoWrite.Item "Write the printer" TodoWrite.in_progress TodoWrite.medium "2" ].


(** The rank of a todo item in the listing: that of its priority. *)
Definition rank (x : TodoWrite.TodoItem) : nat :=
  TodoWrite.priority_order (TodoWrite.item_priority x).

(** Whether a pattern of [ignore] matches an entry of the directory, by its
    name or by its path. *)
Definition ls_ignored (fnmatch : string -> string -> bool) (t : LS.tool)
    (entry : string) : bool :=
  match LS.ignore t with
  | Some patterns => LS.should_ignore fnmatch t patterns entry
  | None => false
  end.

(** * Facts about the models *)

Example find_ex : Str.find "lo" "hello" = Some 3. Proof. reflexivity. Qed.
Example count_overlap : Str.count "aa" "aaa" = 1. Proof. reflexivity. Qed.
Example count_empty : Str.count "" "abc" = 4. Proof. reflexivity. Qed.
Example replace_empty : Str.replace "" "-" "abc" = "-a-b-c-". Proof. reflexivity. Qed.
Example replace_all_ex : Str.replace "aa" "b" "aaaaa" = "bba". Proof. reflexivity. Qed.
Example replace1_ex : Str.replace1 "aa" "b" "caaaa" = "cbaa". Proof. reflexivity. Qed.
Example replace1_empty : Str.replace1 "" "X" "abc" = "Xabc". Proof. reflexivity. Qed.
Example positions_ex : Str.positions "aa" "aaa" = [0; 1]. Proof. reflexivity. Qed.
Example split_ex : Str.split "/" "a//b/" = ["a"; ""; "b"; ""]. Proof. reflexivity. Qed.
Example join_ex : Str.join ", " ["a"; "b"; "c"] = "a, b, c". Proof. reflexivity. Qed.
Example endswith_ex : Str.endswith (Str.lower "/x/Nb.IPYNB") ".ipynb" = true.
Proof. reflexivity. Qed.
Example int_ex :
  Json.int " -1_0 " = Some (-10)%Z /\ Json.int "007" = Some 7%Z
  /\ Json.int "1__0" = None /\ Json.int "cell-1" = None /\ Json.int "" = None.
Proof. repeat split. Qed.
Example heading_ex : TodoWrite.heading TodoWrite.in_progress = "IN PROGRESS".
Proof. reflexivity. Qed.
Example percentage_ex :
  TodoWrite.format_0f (TodoWrite.progress_percentage 1 8) = "12"
  /\ TodoWrite.format_0f (TodoWrite.progress_percentage 115 200) = "57"
  /\ TodoWrite.format_0f (TodoWrite.progress_percentage 2 3) = "67".
Proof. repeat split. Qed.

Module StrFacts.
#[local] Arguments String.append !_ _ /.
Import Str.

Lemma append_assoc (a b c : string) : (a ++ b) ++ c = a ++ b ++ c.
Proof. induction a as [|x a IH]; simpl; [reflexivity | now rewrite IH]. Qed.





Lemma drop_app (a b : string) : drop (String.length a) (a ++ b) = b.
Proof. induction a as [|x a IH]; simpl; [now destruct b | exact IH]. Qed.













End StrFacts.

Module FsFacts.
Import Fs.

Section Facts.
Context {C : Type}.
Implicit Types (n : node C) (w : world C) (p : path) (c : C).

Lemma read_lookup w p c : read w p = inr c -> lookup w p = Some (File c).
Proof.
  unfold read. destruct (lookup w p) as [[d|m]|]; intros H; now inversion H.
Qed.

Lemma read_exists w p c :
  read w p = inr c -> exists_ w p = true /\ isfile w p = true.
Proof. intros H. unfold exists_, isfile. now rewrite (read_lookup _ _ _ H). Qed.

Lemma put_dir (m : gmap string (node C)) l c n :
  put (Dir m) l c = Some n -> exists m', n = Dir m'.
Proof.
  destruct l as [|x q]; simpl; [discriminate|].
  destruct (m !! x) as [k|].
  - destruct (put k q c); simpl; intros H; inversion H; eauto.
  - destruct q; intros H; inversion H; eauto.
Qed.

Lemma put_file l : forall n c c',
  stat n l = Some (File c) ->
  exists n', put n l c' = Some n' /\ stat n' l = Some (File c').
Proof.
  induction l as [|x q IH]; intros n c c' H; simpl in *.
  - injection H as ->. eauto.
  - destruct n as [d|m]; [discriminate|].
    destruct (m !! x) as [k|] eqn:Hx; [|discriminate].
    destruct (IH k c c' H) as (k' & -> & Hk'). simpl.
    eexists. split; [reflexivity|]. simpl. now rewrite lookup_insert_eq.
Qed.

Lemma write_existing w p c c' :
  read w p = inr c ->
  exists w', write w p c' = inr w' /\ read w' p = inr c'
             /\ written w' = (written w ++ [(names p, c')])%list.
Proof.
  intros H. apply read_lookup in H. unfold lookup in H.
  destruct (put_file _ _ _ c' H) as (n' & Hput & Hstat).
  destruct (put_dir _ _ _ _ Hput) as [m' ->].
  unfold write. rewrite Hput. eexists. split; [reflexivity|].
  unfold read, lookup. simpl. rewrite Hstat. split; reflexivity.
Qed.

Lemma mkdirs_parent_of_file l : forall n c,
  stat n l = Some (File c) -> l <> [] -> mkdirs n (removelast l) = inr n.
Proof.
  induction l as [|x q IH]; intros n c H Hne; [congruence|].
  simpl in H. destruct n as [d|m]; [discriminate|].
  destruct (m !! x) as [k|] eqn:Hx; [|discriminate].
  destruct q as [|y q']; [reflexivity|].
  change (removelast (x :: y :: q')) with (x :: removelast (y :: q')).
  cbn [mkdirs]. rewrite Hx. simpl default.
  rewrite (IH k c H); [|discriminate].
  now rewrite insert_id.
Qed.

Lemma makedirs_existing w p c : read w p = inr c -> makedirs w (dirname p) = inr w.
Proof.
  intros H. apply read_lookup in H. unfold lookup in H.
  unfold makedirs. simpl names.
  destruct (names p) as [|x q] eqn:E; [discriminate|].
  rewrite (mkdirs_parent_of_file _ _ _ H); [|discriminate].
  now destruct w.
Qed.

Lemma blocked_empty l : blocked (Dir (∅ : gmap string (node C))) l = false.
Proof. destruct l; simpl; [reflexivity | now rewrite lookup_empty]. Qed.

Lemma stat_empty x l : stat (Dir (∅ : gmap string (node C))) (x :: l) = None.
Proof. simpl. now rewrite lookup_empty. Qed.

(** Creating a file: the directories are made, then the file is put. *)
Lemma mkdirs_put c l : forall n,
  l <> [] -> stat n l = None -> blocked n (removelast l) = false ->
  exists n1 n2,
    mkdirs n (removelast l) = inr n1 /\ put n1 l c = Some n2
    /\ stat n2 l = Some (File c)
    /\ (forall k, k < length l -> exists m, stat n2 (take k l) = Some (Dir m)).
Proof.
  induction l as [|x q IH]; intros n Hne Hnone Hblocked; [congruence|].
  destruct n as [d|m]; [destruct (removelast (x :: q)); discriminate|].
  destruct (decide (q = [])) as [->|Hq].
  - simpl in *. destruct (m !! x) eqn:Hx; [discriminate|].
    exists (Dir m), (Dir (<[x := File c]> m)). rewrite Hx.
    repeat split; simpl.
    + now rewrite lookup_insert_eq.
    + intros k Hk. assert (k = 0) as -> by lia. simpl. eauto.
  - assert (removelast (x :: q) = x :: removelast q) as Hrl
      by (destruct q; [congruence | reflexivity]).
    rewrite Hrl in *.
    set (k0 := default (Dir ∅) (m !! x)).
    assert (stat k0 q = None /\ blocked k0 (removelast q) = false)
      as [Hs Hb].
    { subst k0. cbn [stat blocked] in Hnone, Hblocked.
      destruct (m !! x) as [k|]; simpl default.
      - now split.
      - split; [|apply blocked_empty].
        destruct q; [congruence | apply stat_empty]. }
    destruct (IH k0 Hq Hs Hb) as (n1 & n2 & Hmk & Hput & Hst & Hdirs).
    exists (Dir (<[x := n1]> m)), (Dir (<[x := n2]> m)).
    cbn [mkdirs]. fold k0. rewrite Hmk.
    split; [reflexivity|]. split; [|split].
    + cbn [put]. rewrite lookup_insert_eq, Hput. simpl.
      now rewrite insert_insert_eq.
    + cbn [stat]. now rewrite lookup_insert_eq.
    + intros [|k] Hk; [simpl; eauto|].
      cbn [take stat]. rewrite lookup_insert_eq. apply Hdirs. simpl in Hk. lia.
Qed.

Lemma mkdirs_dir (m : gmap string (node C)) l n :
  mkdirs (Dir m) l = inr n -> exists m', n = Dir m'.
Proof.
  destruct l as [|x q]; cbn [mkdirs]; intros H.
  - inversion H. eauto.
  - destruct (mkdirs (default (Dir ∅) (m !! x)) q); inversion H. eauto.
Qed.

Lemma create w p c :
  lookup w p = None -> blocked (Dir (root w)) (names (dirname p)) = false ->
  exists w1 w2,
    makedirs w (dirname p) = inr w1 /\ write w1 p c = inr w2
    /\ read w2 p = inr c
    /\ written w2 = (written w ++ [(names p, c)])%list
    /\ (forall k, k < length (names p) ->
        isdir w2 {| absolute := absolute p; names := take k (names p) |} = true).
Proof.
  unfold lookup. intros Hnone Hblocked. simpl in Hblocked.
  assert (names p <> []) as Hne by (intros E; rewrite E in Hnone; discriminate).
  destruct (mkdirs_put c _ _ Hne Hnone Hblocked) as (n1 & n2 & Hmk & Hput & Hst & Hdirs).
  destruct (mkdirs_dir _ _ _ Hmk) as [m1 ->].
  destruct (put_dir _ _ _ _ Hput) as [m2 ->].
  exists {| root := m1; written := written w |},
         {| root := m2; written := (written w ++ [(names p, c)])%list |}.
  unfold makedirs, write, read, isdir, lookup. simpl.
  rewrite Hmk, Hput, Hst. repeat split.
  intros k Hk. destruct (Hdirs k Hk) as [m ->]. reflexivity.
Qed.

End Facts.
End FsFacts.

Module EditFacts.
Import Fs Edit StrFacts FsFacts.

(** An edit whose checks pass rewrites the file once. *)
Lemma run_replaces (t : tool) (w : world string) (f : string) :
  absolute (file_path t) = true ->
  read w (file_path t) = inr f ->
  old_string t <> new_string t ->
  Str.contains (old_string t) f = true ->
  (replace_all t = true \/ Str.count (old_string t) f <= 1) ->
  exists w',
    run t w =
      (let n := if replace_all t then Str.count (old_string t) f else 1 in
       if Nat.eqb n 1
       then "Successfully replaced 1 occurrence of the specified text in '"
              ++ show (file_path t) ++ "'"
       else "Successfully replaced " ++ pretty n
              ++ " occurrences of the specified text in '"
              ++ show (file_path t) ++ "'", w')
    /\ read w' (file_path t) = inr (Sequence.step
          (MultiEdit.Op (old_string t) (new_string t) (replace_all t)) f)
    /\ written w' =
         (written w ++ [(names (file_path t), Sequence.step
            (MultiEdit.Op (old_string t) (new_string t) (replace_all t)) f)])%list.
Proof.
  intros Habs Hread Hne Hin Huniq.
  destruct (read_exists _ _ _ Hread) as [Hex Hfile].
  unfold run.
  apply String.eqb_neq in Hne. rewrite Hne, Habs, Hex, Hfile, Hread, Hin.
  cbn [negb].
  assert (negb (replace_all t) && Nat.ltb 1 (Str.count (old_string t) f) = false)
    as ->.
  { destruct Huniq as [-> | Hle]; [reflexivity|].
    apply andb_false_intro2. apply Nat.ltb_ge. exact Hle. }
  unfold Sequence.step. simpl.
  destruct (write_existing w (file_path t) f
              (if replace_all t
               then Str.replace (old_string t) (new_string t) f
               else Str.replace1 (old_string t) (new_string t) f) Hread)
    as (w' & -> & Hr & Hw).
  exists w'. split; [|split; assumption].
  destruct (Nat.eqb _ 1); reflexivity.
Qed.

Lemma run_replaces_ok (t : tool) (w w' : world string) (f r : string) :
  (r, w') =
    (let n := if replace_all t then Str.count (old_string t) f else 1 in
     if Nat.eqb n 1
     then "Successfully replaced 1 occurrence of the specified text in '"
            ++ show (file_path t) ++ "'"
     else "Successfully replaced " ++ pretty n
            ++ " occurrences of the specified text in '"
            ++ show (file_path t) ++ "'", w') ->
  failed r = false.
Proof.
  intros H. injection H as ->. simpl. destruct (Nat.eqb _ 1); reflexivity.
Qed.

End EditFacts.

Module MultiEditFacts.
Import Fs MultiEdit Sequence StrFacts FsFacts.







(** The two loops compute the same content. *)
Lemma apply_validate (file_exists : bool) (es : list EditOperation) :
  forall i c results v,
    validate file_exists i es c = inr v ->
    fst (apply file_exists i es c results) = v.
Proof.
  induction es as [|e rest IH]; intros i c results v; cbn [validate apply].
  - intros H. now injection H.
  - destruct (String.eqb (old_string e) (new_string e)); [discriminate|].
    destruct (negb file_exists && Nat.eqb i 0 && String.eqb (old_string e) "");
      [apply IH|].
    destruct (negb (Str.contains (old_string e) c)); [discriminate|].
    destruct (replace_all e); cbn [negb andb].
    + apply IH.
    + destruct (Nat.ltb 1 (Str.count (old_string e) c)); [discriminate | apply IH].
Qed.





End MultiEditFacts.

Module NotebookFacts.
#[local] Arguments String.append !_ _ /.
Import Fs Json NotebookEdit StrFacts FsFacts.

Lemma append_empty_r (s : string) : s ++ "" = s.
Proof. induction s as [|c s IH]; simpl; [reflexivity | now rewrite IH]. Qed.

Lemma join_empty_cons (x : string) (l : list string) :
  Str.join "" (x :: l) = x ++ Str.join "" l.
Proof. destruct l; simpl; [now rewrite append_empty_r | reflexivity]. Qed.

Lemma split_not_nil (sep : ascii) (s : string) : Str.split sep s <> [].
Proof.
  destruct s as [|c s]; simpl; [discriminate|].
  destruct (Ascii.eqb c sep); [discriminate|].
  destruct (Str.split sep s); discriminate.
Qed.

Lemma join_cons (sep x : string) (l : list string) :
  l <> [] -> Str.join sep (x :: l) = x ++ sep ++ Str.join sep l.
Proof. destruct l; [congruence | reflexivity]. Qed.

Lemma join_split (sep : ascii) (s : string) :
  Str.join (String sep "") (Str.split sep s) = s.
Proof.
  induction s as [|c s IH]; [reflexivity|]. cbn [Str.split].
  destruct (Ascii.eqb_spec c sep) as [->|Hne].
  - rewrite join_cons by apply split_not_nil. rewrite IH. reflexivity.
  - destruct (Str.split sep s) as [|w ws] eqn:E.
    + now destruct (split_not_nil sep s).
    + rewrite <- IH. destruct ws; reflexivity.
Qed.

Lemma join_format_lines (lines : list string) : forall n i,
  lines <> [] -> n = i + length lines ->
  Str.join "" (format_lines n i lines) = Str.join (Str.newline) lines.
Proof.
  induction lines as [|line rest IH]; intros n i Hne Hn; [congruence|].
  cbn [format_lines]. destruct rest as [|line' rest'].
  - simpl in Hn. replace (Nat.eqb i (n - 1)) with true
      by (symmetry; apply Nat.eqb_eq; lia).
    cbn [andb]. destruct (String.eqb_spec line "") as [->|_]; reflexivity.
  - simpl in Hn. replace (Nat.eqb i (n - 1)) with false
      by (symmetry; apply Nat.eqb_neq; lia).
    cbn [andb]. rewrite join_empty_cons, (IH n (S i)); [|discriminate|simpl; lia].
    rewrite (join_cons _ line) by discriminate. now rewrite append_assoc.
Qed.

(** The lines of [_format_source] put together are the source text. *)
Lemma join_format_source (source_text : string) :
  Str.join "" (_format_source source_text) = source_text.
Proof.
  unfold _format_source.
  destruct (String.eqb_spec source_text "") as [->|_]; [reflexivity|].
  rewrite join_format_lines; [apply join_split | apply split_not_nil | reflexivity].
Qed.

Lemma find_id_spec (cid : string) (cs : list cell) : forall j i,
  find_id cid j cs = Some i ->
  j <= i /\ exists c, cs !! (i - j) = Some c /\ has_id c cid = true.
Proof.
  induction cs as [|c rest IH]; intros j i; cbn [find_id]; [discriminate|].
  destruct (has_id c cid) eqn:Hid.
  - intros H. injection H as <-. split; [lia|].
    rewrite Nat.sub_diag. eauto.
  - intros H. destruct (IH _ _ H) as [Hle (c' & Hc' & Hid')].
    split; [lia|]. exists c'. split; [|assumption].
    replace (i - j) with (S (i - S j)) by lia. exact Hc'.
Qed.





Lemma new_cell_type (k : kind) (source : string) (n : nat) :
  new_cell k source n !! "cell_type" = Some (Str (kind_name k)).
Proof. unfold new_cell. destruct k; now simplify_map_eq. Qed.


Section Run.
Variable repr : value -> string.



End Run.
End NotebookFacts.

Module TodoFacts.
Import TodoWrite.

(** The counter of a status is the number of items that have it. *)
Lemma foldl_increment (s : status) (l : list TodoItem) : forall c : counts,
  foldl (fun c todo => increment (item_status todo) c) c l s
  = c s + length (with_status s l).
Proof.
  induction l as [|todo l IH]; intros c; cbn [foldl].
  - simpl. lia.
  - rewrite IH. unfold with_status, increment. rewrite filter_cons.
    destruct s, (item_status todo); simpl; lia.
Qed.

Lemma status_counts_length (s : status) (l : list TodoItem) :
  status_counts l s = length (with_status s l).
Proof. unfold status_counts. now rewrite foldl_increment. Qed.

Lemma length_remove_dups_le (l : list string) :
  length (remove_dups l) <= length l.
Proof.
  induction l as [|x l IH]; simpl; [lia|].
  destruct (decide_rel elem_of x l); simpl; lia.
Qed.

(** The test of Step 2 passes exactly when the ids are distinct. *)
Lemma unique_ids_test (l : list string) :
  Nat.eqb (length l) (length (remove_dups l)) = true <-> NoDup l.
Proof.
  rewrite Nat.eqb_eq. induction l as [|x l IH]; simpl.
  - split; [constructor | reflexivity].
  - pose proof (length_remove_dups_le l) as Hle.
    destruct (decide_rel elem_of x l) as [Hin|Hnotin]; simpl.
    + split; [lia|]. intros H. apply NoDup_cons in H. tauto.
    + split.
      * intros H. apply NoDup_cons. split; [assumption|]. apply IH. lia.
      * intros H. apply NoDup_cons in H. f_equal. now apply IH.
Qed.

End TodoFacts.

(** * The claims *)

Section EditClaims.
Import Fs StrFacts FsFacts EditFacts.



(** The occurrences are those that [str.count] counts: matches that overlap
    count once.  In [aaa] the string [aa] matches at two offsets and is
    counted once, and the edit is done on the first match. *)
Example overlapping_matches_count_once :
  let w := World {[ "f.txt" := File "aaa" ]} [] in
  let p := Path true ["f.txt"] in
  Str.positions "aa" "aaa" = [0; 1] /\ Str.count "aa" "aaa" = 1
  /\ fst (Edit.run (Edit.Tool p "aa" "b" false) w) =
       "Successfully replaced 1 occurrence of the specified text in '/f.txt'"
  /\ read (snd (Edit.run (Edit.Tool p "aa" "b" false) w)) p = inr "ba".
Proof. repeat split. Qed.

(** Claim C9.  The scenario of the test in Edit.py: on a file that holds the
    lines [Hello World], [This is a test file] and [Hello World again],
    replacing [Hello World] by [Hi Universe] with [replace_all] succeeds and
    reports two occurrences replaced; the file is written once and holds
    [Hi Universe], [This is a test file] and [Hi Universe again]. *)
Theorem hello_world_scenario (w : world string) (p : path) :
  absolute p = true ->
  read w p = inr scenario_before ->
  exists w',
    Edit.run (Edit.Tool p "Hello World" "Hi Universe" true) w =
      ("Successfully replaced 2 occurrences of the specified text in '"
         ++ show p ++ "'", w')
    /\ read w' p = inr scenario_after
    /\ written w' = (written w ++ [(names p, scenario_after)])%list.
Proof.
  intros Habs Hread.
  destruct (run_replaces (Edit.Tool p "Hello World" "Hi Universe" true) w
              scenario_before Habs Hread) as (w' & Hrun & Hr & Hw).
  - discriminate.
  - reflexivity.
  - now left.
  - exists w'. cbn [Edit.file_path] in Hrun, Hr, Hw. split; [|split].
    + rewrite Hrun. reflexivity.
    + rewrite Hr. reflexivity.
    + rewrite Hw. reflexivity.
Qed.

Lemma hello_world_scenario_witness :
  exists w',
    Edit.run (Edit.Tool (Path true ["tmp"; "test.txt"]) "Hello World" "Hi Universe" true)
      (World {[ "tmp" := Dir {[ "test.txt" := File scenario_before ]} ]} []) =
      ("Successfully replaced 2 occurrences of the specified text in '/tmp/test.txt'", w')
    /\ read w' (Path true ["tmp"; "test.txt"]) = inr scenario_after
    /\ written w' = [(["tmp"; "test.txt"], scenario_after)].
Proof.
  apply (hello_world_scenario
           (World {[ "tmp" := Dir {[ "test.txt" := File scenario_before ]} ]} [])
           (Path true ["tmp"; "test.txt"])); reflexivity.
Defined.




End EditClaims.

Section MultiEditClaims.
Import Fs MultiEdit Sequence StrFacts FsFacts MultiEditFacts.



(** Claim C10.  When the validation loop of Step 6 accepts a sequence of
    edits, the content that the loop of Step 7 computes from the same initial
    content is the final validation content: what is written is what was
    validated. *)
Theorem commit_replays_validation (file_exists : bool)
    (es : list EditOperation) (content v : string) :
  validate file_exists 0 es content = inr v ->
  fst (apply file_exists 0 es content []) = v.
Proof. apply apply_validate. Qed.

Lemma commit_replays_validation_witness :
  fst (apply true 0 [Op "a" "b" true; Op "bb" "c" false] "aa-a" []) = "c-b".
Proof.
  apply (commit_replays_validation true [Op "a" "b" true; Op "bb" "c" false] "aa-a" "c-b").
  reflexivity.
Defined.




(** Claim C3 as it is stated fails: on a path that does not exist, a first
    operation whose [old_string] and [new_string] are both empty is rejected
    because the two are equal. *)
Lemma new_file_same_strings_rejected :
  let w : world string := World ∅ [] in
  let p := Path true ["new.txt"] in
  exists_ w p = false
  /\ run (Tool p [Op "" "" false]) w =
       ("Error in edit 1: old_string and new_string must be different", w).
Proof. split; reflexivity. Qed.

(** Claim C3, amended.  In new-file mode (the file does not exist and the
    first operation has the empty [old_string]) the first operation is still
    rejected when its [new_string] equals its [old_string], that is, is empty
    too.  Otherwise neither loop checks it for absence or uniqueness: its
    [new_string] becomes the content on which the remaining operations are
    validated and applied. *)
Theorem new_file_first_edit (w : world string) (p : path) (e : EditOperation)
    (rest : list EditOperation) :
  absolute p = true ->
  exists_ w p = false ->
  old_string e = "" ->
  (new_string e = "" ->
   run (Tool p (e :: rest)) w =
     ("Error in edit 1: old_string and new_string must be different", w))
  /\ (new_string e <> "" ->
      validate false 0 (e :: rest) "" = validate false 1 rest (new_string e)
      /\ apply false 0 (e :: rest) "" [] =
           apply false 1 rest (new_string e)
             ["Edit 1: Created new file with content"]).
Proof.
  intros Habs Hex Hold. split.
  - intros Hnew. unfold run. cbn [file_path edits].
    rewrite Habs, Hex, Hold. cbn [negb andb String.eqb].
    cbn [validate]. rewrite Hold, Hnew. reflexivity.
  - intros Hnew. cbn [validate apply]. rewrite Hold.
    destruct (String.eqb_spec "" (new_string e)) as [Heq|_]; [congruence|].
    split; reflexivity.
Qed.

Lemma new_file_first_edit_witness :
  let w : world string := World ∅ [] in
  let p := Path true ["new.txt"] in
  run (Tool p [Op "" "" true; Op "hello" "bye" false]) w =
    ("Error in edit 1: old_string and new_string must be different", w)
  /\ validate false 0 [Op "" "hello" false; Op "hello" "bye" false] "" =
       validate false 1 [Op "hello" "bye" false] "hello"
  /\ apply false 0 [Op "" "hello" false; Op "hello" "bye" false] "" [] =
       apply false 1 [Op "hello" "bye" false] "hello"
         ["Edit 1: Created new file with content"].
Proof.
  split.
  - refine (proj1 (new_file_first_edit (World ∅ []) (Path true ["new.txt"])
                     (Op "" "" true) [Op "hello" "bye" false] _ _ _) _);
      reflexivity.
  - refine (proj2 (new_file_first_edit (World ∅ []) (Path true ["new.txt"])
                     (Op "" "hello" false) [Op "hello" "bye" false] _ _ _) _);
      try reflexivity.
    discriminate.
Defined.

End MultiEditClaims.

Section NotebookClaims.
Import Fs Json StrFacts FsFacts NotebookFacts.

(** The editor looks for the id first. *)
Lemma editor_resolves_id_first (t : NotebookEdit.tool) (cs : list cell)
    (a : ascii) (cid : string) (i : nat) :
  NotebookEdit.cell_id t = Some (String a cid) ->
  NotebookEdit.find_id (String a cid) 0 cs = Some i ->
  NotebookEdit.target t cs = inr i
  /\ exists c, cs !! i = Some c /\ has_id c (String a cid) = true.
Proof.
  intros Hcid Hfind. unfold NotebookEdit.target. rewrite Hcid, Hfind.
  split; [reflexivity|].
  destruct (find_id_spec _ _ _ _ Hfind) as [_ (c & Hc & Hid)].
  rewrite Nat.sub_0_r in Hc. eauto.
Qed.

(** The editor reports that the cell is not found only when neither the id
    nor the position resolves. *)
Lemma editor_not_found (t : NotebookEdit.tool) (cs : list cell)
    (a : ascii) (cid msg : string) :
  NotebookEdit.cell_id t = Some (String a cid) ->
  NotebookEdit.target t cs = inl msg ->
  NotebookEdit.find_id (String a cid) 0 cs = None
  /\ NotebookEdit.find_index (String a cid) cs = None.
Proof.
  unfold NotebookEdit.target. intros ->.
  destruct (NotebookEdit.find_id (String a cid) 0 cs); [discriminate|].
  destruct (NotebookEdit.find_index (String a cid) cs); [discriminate|].
  split; reflexivity.
Qed.


(** Claim C4.  The editor and the reader do not resolve a [cell_id] to the
    same cell: in a notebook whose cells have the ids [a] and [0], for the
    [cell_id] [0] the editor resolves to the second cell, whose id matches,
    and the reader to the first cell, by position. *)
Theorem reader_and_editor_disagree :
  let t := NotebookEdit.Tool notebook_path (Some "0") "" None NotebookEdit.replace in
  NotebookEdit.target t [cell_a; cell_0] = inr 1
  /\ [cell_a; cell_0] !! 1 = Some cell_0
  /\ NotebookRead.find_cell "0" [cell_a; cell_0] [cell_a; cell_0] = Some cell_a
  /\ has_id cell_0 "0" = true /\ has_id cell_a "0" = false.
Proof. repeat split. Qed.




End NotebookClaims.

Section TodoClaims.
Import TodoWrite TodoFacts.

(** Claim C8 as it is stated fails: for two tasks in progress with distinct
    ids the response starts with [Warning:], not with [Error:]. *)
Lemma in_progress_pair_warned :
  2 <= length (with_status in_progress two_in_progress)
  /\ NoDup (id <$> two_in_progress)
  /\ Str.startswith (run (Tool two_in_progress)) "Error:" = false
  /\ Str.startswith (run (Tool two_in_progress)) "Warning:" = true.
Proof.
  split; [vm_compute; lia|]. split; [|split; reflexivity].
  apply unique_ids_test. reflexivity.
Qed.

(** Claim C8, amended.  A list with two or more items in progress is
    rejected before the list is formatted: when the ids are distinct the
    response is the warning that names the tasks in progress, and it starts
    with [Warning:]; when they are not, it is the error about the ids. *)
Theorem several_in_progress_rejected (l : list TodoItem) :
  2 <= length (with_status in_progress l) ->
  (NoDup (id <$> l) ->
   run (Tool l) =
     "Warning: Multiple tasks marked as in_progress. Recommended to have only one task in_progress at a time:"
       ++ Str.newline
       ++ Str.join Str.newline
            ((fun item => "- " ++ item) <$> (content <$> with_status in_progress l)))
  /\ (~ NoDup (id <$> l) ->
      run (Tool l) = "Error: All todo items must have unique IDs").
Proof.
  intros Hcount. unfold run. cbn [todos].
  destruct l as [|todo l]; [simpl in Hcount; lia|].
  rewrite status_counts_length.
  destruct (Nat.eqb (length (id <$> todo :: l))
              (length (remove_dups (id <$> todo :: l)))) eqn:Hids; cbn [negb].
  - apply unique_ids_test in Hids.
    replace (Nat.ltb 1 (length (with_status in_progress (todo :: l)))) with true
      by (symmetry; apply Nat.ltb_lt; lia).
    split; [reflexivity | contradiction].
  - split; [|reflexivity].
    intros Hnodup. apply unique_ids_test in Hnodup. congruence.
Qed.

Lemma several_in_progress_rejected_witness :
  run (Tool two_in_progress) =
    "Warning: Multiple tasks marked as in_progress. Recommended to have only one task in_progress at a time:"
      ++ Str.newline ++ "- Write the parser" ++ Str.newline ++ "- Write the printer".
Proof.
  apply (proj1 (several_in_progress_rejected two_in_progress
                  ltac:(vm_compute; lia))).
  apply unique_ids_test. reflexivity.
Defined.

End TodoClaims.

(** * Further properties of the tools *)

Module FrameFacts.
Import Fs FsFacts.

Section Frame.
Context {C : Type}.
Implicit Types (n : node C) (w : world C) (p : path) (c : C).

(** Writing the file at [l] leaves what is at every other place. *)
Lemma put_frame l : forall n n' c q,
  put n l c = Some n' -> q <> l ->
  match stat n' q, stat n q with
  | Some (File d'), Some (File d) => d' = d
  | Some (Dir _), Some (Dir _) => True
  | None, None => True
  | _, _ => False
  end.
Proof.
  induction l as [|x l IH]; intros n n' c q Hput Hq.
  - destruct n as [d|m]; [|discriminate]. injection Hput as <-.
    destruct q as [|y q]; [congruence | exact I].
  - destruct n as [d|m]; [discriminate|]. cbn [put] in Hput.
    destruct (m !! x) as [k|] eqn:Hx.
    + destruct (put k l c) as [k'|] eqn:Hk; [|discriminate].
      injection Hput as <-.
      destruct q as [|y q]; [exact I|]. cbn [stat].
      destruct (decide (y = x)) as [->|Hy].
      * rewrite lookup_insert_eq, Hx. apply (IH k k' c q Hk). congruence.
      * rewrite lookup_insert_ne by congruence.
        destruct (m !! y) as [j|]; [|exact I].
        destruct (stat j q) as [[d|e]|]; auto.
    + destruct l as [|z l]; [|discriminate]. injection Hput as <-.
      destruct q as [|y q]; [exact I|]. cbn [stat].
      destruct (decide (y = x)) as [->|Hy].
      * rewrite lookup_insert_eq, Hx. destruct q; [congruence | exact I].
      * rewrite lookup_insert_ne by congruence.
        destruct (m !! y) as [j|]; [|exact I].
        destruct (stat j q) as [[d|e]|]; auto.
Qed.

Lemma write_frame w w' p c q :
  write w p c = inr w' -> names q <> names p -> read w' q = read w q.
Proof.
  unfold write. intros Hw Hq.
  destruct (put (Dir (root w)) (names p) c) as [[d|m]|] eqn:Hput;
    try (destruct (isdir w p); [discriminate|];
         destruct (blocked _ _); discriminate).
  injection Hw as <-.
  pose proof (put_frame _ _ _ _ (names q) Hput Hq) as H.
  unfold read, lookup. cbn [root].
  destruct (stat (Dir m) (names q)) as [[d'|e']|],
           (stat (Dir (root w)) (names q)) as [[d|e]|];
    try contradiction; congruence.
Qed.




Lemma mkdirs_not_blocked l : forall n n',
  mkdirs n l = inr n' -> blocked n l = false.
Proof.
  induction l as [|x l IH]; intros n n' H; destruct n as [e|m]; try discriminate.
  - reflexivity.
  - cbn [mkdirs] in H. cbn [blocked].
    destruct (m !! x) as [k|]; [|reflexivity]. simpl in H.
    destruct (mkdirs k l) as [i|k'] eqn:Hk; [discriminate|].
    exact (IH _ _ Hk).
Qed.

Lemma makedirs_not_blocked w w' p :
  makedirs w p = inr w' -> blocked (Dir (root w)) (names p) = false.
Proof.
  unfold makedirs.
  destruct (mkdirs (Dir (root w)) (names p)) as [i|n] eqn:Hmk.
  - destruct (Nat.eqb _ _); discriminate.
  - intros _. exact (mkdirs_not_blocked _ _ _ Hmk).
Qed.

End Frame.
End FrameFacts.

Module SizeFacts.
#[local] Arguments String.append !_ _ /.
Import Str StrFacts.







End SizeFacts.

Section EditProperties.
Import Fs StrFacts FsFacts EditFacts FrameFacts SizeFacts.


(** X2.  [Edit.run] touches no other path: whatever it answers, every path
    other than [file_path] reads afterwards as it read before (the same
    content, or the same error). *)
Theorem edit_leaves_other_paths (t : Edit.tool) (w : world string) (q : path) :
  names q <> names (Edit.file_path t) ->
  read (snd (Edit.run t w)) q = read w q.
Proof.
  intros Hq. unfold Edit.run.
  repeat (match goal with
          | |- context [match write ?w0 ?p ?c with _ => _ end] =>
              destruct (write w0 p c) eqn:?
          | |- context [match read ?w0 ?p with _ => _ end] => destruct (read w0 p)
          | |- context [if ?b then _ else _] => destruct b
          end; try reflexivity);
    cbn [snd]; eapply write_frame; eassumption.
Qed.

Lemma edit_leaves_other_paths_witness :
  let w := World {[ "a.txt" := File "one"; "b.txt" := File "two" ]} [] in
  read (snd (Edit.run (Edit.Tool (Path true ["a.txt"]) "one" "1" false) w))
    (Path true ["b.txt"]) = inr "two".
Proof.
  intros w.
  rewrite (edit_leaves_other_paths
             (Edit.Tool (Path true ["a.txt"]) "one" "1" false) w
             (Path true ["b.txt"])); [reflexivity | discriminate].
Defined.



End EditProperties.

Module WriteFacts.
Import Fs FsFacts FrameFacts.

Section Facts.
Context {C : Type}.
Implicit Types (n : node C) (w : world C) (p : path) (c : C).

Lemma put_stat l : forall n n' c, put n l c = Some n' -> stat n' l = Some (File c).
Proof.
  induction l as [|x l IH]; intros n n' c H.
  - destruct n; [|discriminate]. now injection H as <-.
  - destruct n as [d|m]; [discriminate|]. cbn [put] in H.
    destruct (m !! x) as [k|].
    + destruct (put k l c) as [k'|] eqn:Hk; [|discriminate].
      injection H as <-. cbn [stat]. rewrite lookup_insert_eq. now apply (IH k).
    + destruct l; [|discriminate]. injection H as <-.
      cbn [stat]. now rewrite lookup_insert_eq.
Qed.

(** What a write that succeeds leaves. *)
Lemma write_inr w w' p c :
  write w p c = inr w' ->
  read w' p = inr c /\ written w' = (written w ++ [(names p, c)])%list.
Proof.
  unfold write. intros H.
  destruct (put (Dir (root w)) (names p) c) as [[d|m]|] eqn:Hput;
    try (destruct (isdir w p); [discriminate|];
         destruct (blocked _ _); discriminate).
  injection H as <-. unfold read, lookup. cbn [root written].
  now rewrite (put_stat _ _ _ _ Hput).
Qed.

(** After the directories of a path are made, the write of a file that is not
    there, or is a regular file, succeeds. *)
Lemma write_after_makedirs w w1 p c :
  makedirs w (dirname p) = inr w1 ->
  isdir w p = false ->
  exists w2, write w1 p c = inr w2.
Proof.
  intros Hmk Hdir.
  destruct (lookup w p) as [[d|m]|] eqn:Hl.
  - assert (read w p = inr d) as Hread by (unfold read; now rewrite Hl).
    rewrite (makedirs_existing _ _ _ Hread) in Hmk. injection Hmk as <-.
    destruct (write_existing w p d c Hread) as (w2 & -> & _). eauto.
  - unfold isdir in Hdir. now rewrite Hl in Hdir.
  - destruct (create w p c Hl (makedirs_not_blocked _ _ _ Hmk))
      as (w1' & w2 & Hmk' & Hw & _).
    rewrite Hmk in Hmk'. injection Hmk' as <-. eauto.
Qed.

End Facts.
End WriteFacts.

Section MultiEditProperties.
Import Fs MultiEdit Sequence StrFacts FsFacts EditFacts MultiEditFacts FrameFacts
  WriteFacts.


(** X5.  On a file that exists, a request of one operation does what
    [Edit.run] does with that operation: the two leave the same file system,
    and they fail together. *)
Theorem multi_edit_of_one_is_edit (w : world string) (p : path) (f : string)
    (old new : string) (all : bool) :
  absolute p = true ->
  read w p = inr f ->
  snd (run (Tool p [Op old new all]) w) = snd (Edit.run (Edit.Tool p old new all) w)
  /\ failed (fst (run (Tool p [Op old new all]) w))
     = failed (fst (Edit.run (Edit.Tool p old new all) w)).
Proof.
  intros Habs Hread. destruct (read_exists _ _ _ Hread) as [Hex Hfile].
  unfold run, Edit.run.
  cbn [file_path edits Edit.file_path Edit.old_string Edit.new_string
       Edit.replace_all].
  rewrite Habs, Hex, Hfile, Hread. cbn [negb andb validate apply].
  cbn [old_string new_string replace_all].
  destruct (String.eqb old new); [now split|].
  destruct (Str.contains old f); cbn [negb]; [|now split].
  destruct (negb all && Nat.ltb 1 (Str.count old f)); [now split|].
  rewrite (makedirs_existing _ _ _ Hread).
  destruct all; cbn [fst snd].
  - destruct (write w p (Str.replace old new f)); [now split|].
    destruct (Nat.eqb _ 1); now split.
  - destruct (write w p (Str.replace1 old new f)); now split.
Qed.

Lemma multi_edit_of_one_is_edit_witness :
  let w := World {[ "a.txt" := File "x+x+x" ]} [] in
  let p := Path true ["a.txt"] in
  snd (run (Tool p [Op "x" "y" true]) w) = snd (Edit.run (Edit.Tool p "x" "y" true) w)
  /\ failed (fst (run (Tool p [Op "x" "y" true]) w))
     = failed (fst (Edit.run (Edit.Tool p "x" "y" true) w)).
Proof.
  intros w p.
  exact (multi_edit_of_one_is_edit w p "x+x+x" "x" "y" true eq_refl eq_refl).
Defined.





End MultiEditProperties.

Module CellFacts.
#[local] Arguments String.append !_ _ /.
Import Fs Json NotebookEdit StrFacts FsFacts NotebookFacts.

(** No part that [split] cuts out holds the separator. *)
Lemma split_no_sep (sep : ascii) (s : string) :
  Forall (fun part => Str.contains (String sep "") part = false) (Str.split sep s).
Proof.
  induction s as [|c s IH]; cbn [Str.split].
  - repeat constructor.
  - destruct (Ascii.eqb_spec c sep) as [->|Hne].
    + constructor; [reflexivity | exact IH].
    + destruct (Str.split sep s) as [|part parts]; [repeat constructor|].
      * simpl. destruct (ascii_dec sep c); [congruence | reflexivity].
      * inversion IH as [|? ? Hpart Hparts]; subst. constructor; [|exact Hparts].
        cbn [Str.contains String.prefix].
        destruct (ascii_dec sep c) as [->|_]; [congruence|]. exact Hpart.
Qed.

(** The lines of the loop of [_format_source]: every part but the last one
    gets its line feed back, and an empty last part is dropped. *)
Lemma format_lines_shape (lines : list string) : forall n i k line,
  n = i + length lines ->
  format_lines n i lines !! k = Some line ->
  exists part,
    lines !! k = Some part
    /\ (line = part ++ Str.newline /\ S k < length lines
        \/ line = part /\ S k = length lines /\ part <> "").
Proof.
  induction lines as [|l rest IH]; intros n i k line Hn Hk; [discriminate|].
  cbn [format_lines] in Hk. destruct rest as [|l' rest'].
  - simpl in Hn. replace (Nat.eqb i (n - 1)) with true in Hk
      by (symmetry; apply Nat.eqb_eq; lia).
    cbn [andb format_lines] in Hk.
    destruct (String.eqb_spec l "") as [->|Hl]; [discriminate|].
    destruct k; [|discriminate]. injection Hk as <-.
    exists l. split; [reflexivity|]. right. repeat split. exact Hl.
  - simpl in Hn. replace (Nat.eqb i (n - 1)) with false in Hk
      by (symmetry; apply Nat.eqb_neq; lia).
    cbn [andb] in Hk. destruct k as [|k].
    + injection Hk as <-. exists l. split; [reflexivity|]. left.
      split; [reflexivity | simpl; lia].
    + destruct (IH n (S i) k line ltac:(simpl; lia) Hk) as (part & Hp & Hshape).
      exists part. split; [exact Hp|]. simpl in *. destruct Hshape as [[? ?]|(? & ? & ?)].
      * left. split; [assumption | lia].
      * right. repeat split; [assumption | lia | assumption].
Qed.

Lemma length_format_lines (lines : list string) : forall n i,
  length (format_lines n i lines) <= length lines.
Proof.
  induction lines as [|l rest IH]; intros n i; cbn [format_lines]; [lia|].
  repeat match goal with
         | |- context [if ?b then _ else _] => destruct b
         end; simpl; specialize (IH n (S i)); lia.
Qed.






End CellFacts.

Module ReplacedFacts.
Import Fs Json NotebookEdit.








End ReplacedFacts.

Module NotebookRunFacts.
Import Fs Json NotebookEdit StrFacts FsFacts NotebookFacts CellFacts WriteFacts.

Section Run.
Variable repr : value -> string.





End Run.
End NotebookRunFacts.

Section NotebookProperties.
Import Fs Json StrFacts FsFacts NotebookFacts CellFacts WriteFacts NotebookRunFacts
  ReplacedFacts.






End NotebookProperties.

Section ResolutionProperties.
Import Fs Json StrFacts FsFacts NotebookFacts CellFacts.

(** X10.  The lines that [_format_source] makes of a source put together
    are the source again.  No line is empty, a line holds a line feed at its
    end only, and only the last line can be without one. *)
Theorem format_source_lines (source : string) :
  Str.join "" (NotebookEdit._format_source source) = source
  /\ forall k line,
       NotebookEdit._format_source source !! k = Some line ->
       exists part,
         Str.contains Str.newline part = false
         /\ (line = part ++ Str.newline
             \/ line = part /\ part <> ""
                /\ S k = length (NotebookEdit._format_source source)).
Proof.
  split; [apply join_format_source|].
  intros k line Hk. pose proof (lookup_lt_Some _ _ _ Hk) as Hlt.
  unfold NotebookEdit._format_source in *.
  destruct (String.eqb source ""); [discriminate|].
  cbv zeta in *.
  pose proof (length_format_lines (Str.split "010" source)
                (length (Str.split "010" source)) 0) as Hlen.
  destruct (format_lines_shape _ _ 0 k line eq_refl Hk) as (part & Hpart & Hshape).
  exists part. split.
  - pose proof (split_no_sep "010" source) as Hall.
    rewrite Forall_forall in Hall. apply Hall.
    apply list_elem_of_lookup. eauto.
  - destruct Hshape as [[-> _]|(-> & Hlast & Hne)]; [now left|].
    right. split; [reflexivity|]. split; [exact Hne | lia].
Qed.





End ResolutionProperties.

Module SortFacts.
Import TodoWrite.

Lemma insert_sorted_perm (x : TodoItem) (l : list TodoItem) :
  insert_sorted x l ≡ₚ x :: l.
Proof.
  induction l as [|y l IH]; cbn [insert_sorted]; [reflexivity|].
  destruct (Nat.leb _ _); [reflexivity|].
  rewrite IH. apply Permutation_swap.
Qed.

Lemma sort_perm (l : list TodoItem) : sort l ≡ₚ l.
Proof.
  induction l as [|x l IH]; [reflexivity|].
  unfold sort in *. cbn [foldr]. rewrite insert_sorted_perm. now rewrite IH.
Qed.

Lemma insert_sorted_sorted (x : TodoItem) (l : list TodoItem) :
  StronglySorted (fun a b => rank a <= rank b) l ->
  StronglySorted (fun a b => rank a <= rank b) (insert_sorted x l).
Proof.
  induction l as [|y l IH]; intros Hs; cbn [insert_sorted].
  - repeat constructor.
  - inversion Hs as [|? ? Hl Hy]; subst.
    destruct (Nat.leb_spec (priority_order (item_priority x))
                (priority_order (item_priority y))) as [Hle|Hlt].
    + constructor; [exact Hs|]. constructor; [exact Hle|].
      rewrite Forall_forall in *. intros z Hz. specialize (Hy z Hz).
      unfold rank in *. lia.
    + constructor; [now apply IH|].
      rewrite Forall_forall in *. intros z Hz.
      rewrite insert_sorted_perm in Hz. apply elem_of_cons in Hz as [->|Hz].
      * unfold rank. lia.
      * now apply Hy.
Qed.

Lemma sort_sorted (l : list TodoItem) :
  StronglySorted (fun a b => rank a <= rank b) (sort l).
Proof.
  induction l as [|x l IH]; [constructor|].
  unfold sort in *. cbn [foldr]. now apply insert_sorted_sorted.
Qed.

Lemma insert_sorted_stable (k : nat) (x : TodoItem) (l : list TodoItem) :
  filter (fun a => rank a = k) (insert_sorted x l)
  = filter (fun a => rank a = k) (x :: l).
Proof.
  induction l as [|y l IH]; cbn [insert_sorted]; [reflexivity|].
  destruct (Nat.leb_spec (priority_order (item_priority x))
              (priority_order (item_priority y))) as [Hle|Hlt]; [reflexivity|].
  rewrite filter_cons, IH, !filter_cons.
  unfold rank. repeat case_decide; try reflexivity; lia.
Qed.

Lemma sort_stable (k : nat) (l : list TodoItem) :
  filter (fun a => rank a = k) (sort l) = filter (fun a => rank a = k) l.
Proof.
  induction l as [|x l IH]; [reflexivity|].
  unfold sort in *. cbn [foldr]. rewrite insert_sorted_stable, !filter_cons.
  now rewrite IH.
Qed.

Lemma with_status_spec (s : status) (l : list TodoItem) (x : TodoItem) :
  x ∈ with_status s l <-> x ∈ l /\ item_status x = s.
Proof.
  unfold with_status. rewrite list_elem_of_filter.
  destruct (item_status x), s; simpl; intuition congruence.
Qed.

End SortFacts.

Section TodoProperties.
Import TodoWrite TodoFacts SortFacts.

(** X13.  The list is formatted exactly when it is not empty, its ids
    are distinct and at most one item is in progress; otherwise the response
    is one of the two errors or the warning, and none of them starts like the
    formatted list. *)
Theorem todo_list_accepted (l : list TodoItem) :
  Str.startswith (run (Tool l)) "=== TODO LIST ===" = true
  <-> l <> [] /\ NoDup (id <$> l) /\ length (with_status in_progress l) <= 1.
Proof.
  unfold run. cbn [todos]. destruct l as [|todo l].
  { split; [discriminate | intros [H _]; congruence]. }
  rewrite status_counts_length.
  destruct (Nat.eqb (length (id <$> todo :: l))
              (length (remove_dups (id <$> todo :: l)))) eqn:Hids; cbn [negb].
  - apply unique_ids_test in Hids.
    destruct (Nat.ltb_spec 1 (length (with_status in_progress (todo :: l)))) as [Hlt|Hle].
    + split; [discriminate | intros (_ & _ & H); lia].
    + split; [intros _; repeat split; [discriminate | assumption | assumption]|].
      intros _.
      destruct (group in_progress (todo :: l) ++ group pending (todo :: l)
                  ++ group completed (todo :: l) ++ _)%list; reflexivity.
  - split; [discriminate|]. intros (_ & Hnodup & _).
    apply unique_ids_test in Hnodup. congruence.
Qed.

(** X14.  The three counters of Step 3 add up to the number of items, and
    each is the number of items with its status. *)
Theorem status_counts_partition (l : list TodoItem) :
  status_counts l pending + status_counts l in_progress + status_counts l completed
  = length l
  /\ forall s, status_counts l s = length (with_status s l).
Proof.
  split; [|intros s; apply status_counts_length].
  rewrite !status_counts_length. unfold with_status.
  induction l as [|x l IH]; [reflexivity|].
  rewrite !filter_cons. destruct (item_status x); simpl; lia.
Qed.

(** X15.  A status group is listed by priority, high first, and items of
    one priority stand in the order of the todo list: the sort is a
    rearrangement of the group that is ordered by rank and stable. *)
Theorem group_sorted_by_priority (s : status) (l : list TodoItem) :
  sort (with_status s l) ≡ₚ with_status s l
  /\ StronglySorted (fun a b => rank a <= rank b) (sort (with_status s l))
  /\ forall k,
       filter (fun a => rank a = k) (sort (with_status s l))
       = filter (fun a => rank a = k) (with_status s l).
Proof.
  split; [apply sort_perm|]. split; [apply sort_sorted|].
  intros k. apply sort_stable.
Qed.

(** X16.  The last line of the listing.  With an item in progress it names
    the first such item.  With none in progress and some pending it names a
    pending item of the highest priority, the first of them in the list.  With
    neither, every item is completed and the line says so. *)
Theorem next_action_choice (l : list TodoItem) :
  match with_status in_progress l with
  | x :: _ => next_action l = "CURRENT FOCUS: " ++ content x
  | [] =>
      match with_status pending l with
      | _ :: _ =>
          exists x rest,
            next_action l = "NEXT UP: " ++ content x
            /\ x ∈ l /\ item_status x = pending
            /\ (forall y, y ∈ l -> item_status y = pending -> rank x <= rank y)
            /\ filter (fun a => rank a = rank x) (with_status pending l) = x :: rest
      | [] =>
          next_action l = "🎉 All tasks completed!"
          /\ forall y, y ∈ l -> item_status y = completed
      end
  end.
Proof.
  unfold next_action.
  destruct (with_status in_progress l) as [|x r] eqn:Hprog; [|reflexivity].
  destruct (with_status pending l) as [|p ps] eqn:Hpend.
  - split; [reflexivity|]. intros y Hy.
    destruct (item_status y) eqn:Hs; [| |reflexivity].
    + assert (y ∈ with_status pending l) as H by now apply with_status_spec.
      rewrite Hpend in H. inversion H.
    + assert (y ∈ with_status in_progress l) as H by now apply with_status_spec.
      rewrite Hprog in H. inversion H.
  - pose proof (sort_perm (p :: ps)) as Hperm.
    pose proof (sort_sorted (p :: ps)) as Hsorted.
    pose proof (sort_stable) as Hstable.
    destruct (sort (p :: ps)) as [|x rest] eqn:Hsort.
    { apply Permutation_nil_l in Hperm. discriminate. }
    specialize (Hstable (rank x) (p :: ps)). rewrite Hsort in Hstable.
    rewrite filter_cons in Hstable. case_decide; [|congruence].
    assert (x ∈ with_status pending l) as Hx.
    { rewrite Hpend, <- Hperm. left. }
    apply with_status_spec in Hx as [Hxl Hxs].
    exists x, (filter (fun a => rank a = rank x) rest).
    split; [reflexivity|]. split; [exact Hxl|]. split; [exact Hxs|]. split.
    + intros y Hy Hys.
      assert (y ∈ x :: rest) as Hin.
      { rewrite Hperm, <- Hpend. now apply with_status_spec. }
      apply elem_of_cons in Hin as [->|Hin]; [lia|].
      inversion Hsorted as [|? ? _ Hall]; subst.
      rewrite Forall_forall in Hall. now apply Hall.
    + symmetry. exact Hstable.
Qed.

End TodoProperties.

Module DirFacts.
Import Fs FsFacts FrameFacts WriteFacts.

Section Facts.
Context {C : Type}.
Implicit Types (n : node C) (w : world C) (p : path) (c : C).

Lemma mkdirs_noop l : forall n m', stat n l = Some (Dir m') -> mkdirs n l = inr n.
Proof.
  induction l as [|x l IH]; intros n m' H.
  - injection H as ->. reflexivity.
  - destruct n as [d|m]; [discriminate|]. cbn [stat] in H. cbn [mkdirs].
    destruct (m !! x) as [k|] eqn:Hx; [|discriminate]. simpl.
    rewrite (IH k m' H). now rewrite insert_id.
Qed.

Lemma makedirs_noop w p : isdir w p = true -> makedirs w p = inr w.
Proof.
  unfold isdir, lookup. intros H.
  destruct (stat (Dir (root w)) (names p)) as [[d|m]|] eqn:Hs; try discriminate.
  unfold makedirs. rewrite (mkdirs_noop _ _ _ Hs). now destruct w.
Qed.

Lemma stat_not_blocked l : forall n x,
  stat n l = Some x -> blocked n l = false -> exists m, x = Dir m.
Proof.
  induction l as [|y l IH]; intros n x H Hb.
  - injection H as <-. destruct n; [discriminate | eauto].
  - destruct n as [d|m]; [discriminate|]. cbn [stat blocked] in *.
    destruct (m !! y) as [k|]; [|discriminate]. exact (IH k x H Hb).
Qed.

Lemma mkdirs_blocked l : forall n, blocked n l = true -> exists i, mkdirs n l = inl i.
Proof.
  induction l as [|x l IH]; intros n Hb; destruct n as [d|m];
    try (now exists 0); try discriminate.
  cbn [blocked] in Hb. cbn [mkdirs].
  destruct (m !! x) as [k|]; [|discriminate]. simpl.
  destruct (IH k Hb) as [i ->]. eauto.
Qed.

Lemma makedirs_blocked w p :
  blocked (Dir (root w)) (names p) = true -> exists e, makedirs w p = inl e.
Proof.
  intros Hb. destruct (mkdirs_blocked _ _ Hb) as [i Hi].
  unfold makedirs. rewrite Hi. destruct (Nat.eqb _ _); eauto.
Qed.

Lemma put_blocked l : forall n c,
  l <> [] -> blocked n (removelast l) = true -> put n l c = None.
Proof.
  induction l as [|x l IH]; intros n c Hne Hb; [congruence|].
  - destruct n as [d|m]; [reflexivity|].
    destruct (decide (l = [])) as [->|Hl]; [discriminate|].
    assert (removelast (x :: l) = x :: removelast l) as Hrl
      by (destruct l; [congruence | reflexivity]).
    rewrite Hrl in Hb. cbn [blocked] in Hb. cbn [put].
    destruct (m !! x) as [k|]; [|discriminate].
    now rewrite (IH k c Hl Hb).
Qed.

Lemma write_blocked w p c :
  blocked (Dir (root w)) (names (dirname p)) = true -> exists e, write w p c = inl e.
Proof.
  intros Hb. unfold write.
  assert (names p <> []) as Hne.
  { intros Hn. unfold dirname in Hb. cbn [names] in Hb. rewrite Hn in Hb. discriminate. }
  rewrite (put_blocked _ _ c Hne Hb).
  destruct (isdir w p); [eauto|]. rewrite Hb. eauto.
Qed.

End Facts.
End DirFacts.

Module WriteRunFacts.
Import Fs FsFacts FrameFacts WriteFacts DirFacts Write.

Lemma show_absolute (p : path) : absolute p = true -> String.eqb (show p) "" = false.
Proof. unfold show. intros ->. reflexivity. Qed.

Lemma os_error_failed (t : tool) (e : oserror) : failed (os_error t e) = true.
Proof. unfold os_error. destruct (Nat.eqb _ 36); reflexivity. Qed.

(** Step 4 makes the directories exactly when [os.makedirs] would. *)
Lemma step4_makedirs (w : world string) (p : path) :
  absolute p = true ->
  blocked (Dir (root w)) (names (dirname p)) = false ->
  (if negb (String.eqb (show (dirname p)) "") && negb (exists_ w (dirname p))
   then makedirs w (dirname p) else inr w) = makedirs w (dirname p).
Proof.
  intros Habs Hb. rewrite (show_absolute (dirname p) Habs). cbn [negb andb].
  destruct (exists_ w (dirname p)) eqn:Hex; [|reflexivity]. cbn [negb].
  symmetry. apply makedirs_noop. unfold exists_, isdir, lookup in *.
  destruct (stat (Dir (root w)) (names (dirname p))) as [x|] eqn:Hs; [|discriminate].
  destruct (stat_not_blocked _ _ _ Hs Hb) as [m ->]. reflexivity.
Qed.

(** The two ways a write of a file that is not a directory can go. *)
Lemma run_cases (t : tool) (w : world string) :
  absolute (file_path t) = true ->
  isdir w (file_path t) = false ->
  (blocked (Dir (root w)) (names (dirname (file_path t))) = false
   /\ exists w1 w2,
        makedirs w (dirname (file_path t)) = inr w1
        /\ write w1 (file_path t) (content t) = inr w2
        /\ run t w =
             ((if exists_ w (file_path t)
               then "Successfully overwrote file '" ++ show (file_path t)
                      ++ "' (" ++ pretty (String.length (content t)) ++ " bytes)"
               else "Successfully created file '" ++ show (file_path t)
                      ++ "' (" ++ pretty (String.length (content t)) ++ " bytes)"),
              (if exists_ w (file_path t) then [warning] else []), w2))
  \/ (blocked (Dir (root w)) (names (dirname (file_path t))) = true
      /\ exists e, run t w = (os_error t e, [], w)
                   /\ exists_ w (file_path t) = false).
Proof.
  intros Habs Hdir.
  assert (exists_ w (file_path t) && negb (isfile w (file_path t)) = false) as Hgate.
  { unfold exists_, isfile, isdir in *.
    now destruct (lookup w (file_path t)) as [[d|m]|]. }
  destruct (blocked (Dir (root w)) (names (dirname (file_path t)))) eqn:Hb.
  - right. split; [reflexivity|].
    assert (exists_ w (file_path t) = false) as Hex.
    { unfold exists_, lookup. destruct (stat _ (names (file_path t))) as [x|] eqn:Hs;
        [|reflexivity].
      unfold isdir, lookup in Hdir. rewrite Hs in Hdir. destruct x as [d|m]; [|discriminate].
      assert (read w (file_path t) = inr d) as Hr by (unfold read, lookup; now rewrite Hs).
      pose proof (makedirs_existing _ _ _ Hr) as Hmk.
      apply makedirs_not_blocked in Hmk. congruence. }
    unfold run. rewrite Habs, Hex. cbn [negb andb].
    rewrite (show_absolute (dirname (file_path t)) Habs). cbn [negb andb].
    destruct (exists_ w (dirname (file_path t))); cbn [negb].
    + destruct (write_blocked w (file_path t) (content t) Hb) as [e ->]. eauto.
    + destruct (makedirs_blocked w (dirname (file_path t)) Hb) as [e ->]. eauto.
  - left. split; [reflexivity|].
    destruct (makedirs w (dirname (file_path t))) as [e|w1] eqn:Hmk.
    { destruct (lookup w (file_path t)) as [[d|m]|] eqn:Hl.
      - assert (read w (file_path t) = inr d) as Hr by (unfold read; now rewrite Hl).
        rewrite (makedirs_existing _ _ _ Hr) in Hmk. discriminate.
      - unfold isdir in Hdir. now rewrite Hl in Hdir.
      - destruct (create w (file_path t) (content t) Hl Hb) as (? & ? & Hmk' & _).
        congruence. }
    destruct (write_after_makedirs w w1 (file_path t) (content t) Hmk Hdir) as [w2 Hw].
    exists w1, w2. split; [reflexivity|]. split; [exact Hw|].
    unfold run. rewrite Habs, Hgate. cbn [negb].
    rewrite (step4_makedirs w (file_path t) Habs Hb), Hmk, Hw.
    unfold getsize. rewrite (proj1 (write_inr _ _ _ _ Hw)).
    destruct (exists_ w (file_path t)); reflexivity.
Qed.

End WriteRunFacts.

Section WriteProperties.
Import Fs.




(** X19.  Write.py and MultiEdit.py.  Writing a non-empty content to a path where
    nothing exists does to the file system what MultiEdit.py does with the
    one edit that creates the file with this content, and the two fail
    together. *)
Theorem write_creates_as_multi_edit (p : path) (c : string) (all : bool)
    (w : world string) :
  exists_ w p = false ->
  c <> "" ->
  snd (Write.run (Write.Tool p c) w)
    = snd (MultiEdit.run (MultiEdit.Tool p [MultiEdit.Op "" c all]) w)
  /\ failed (fst (fst (Write.run (Write.Tool p c) w)))
     = failed (fst (MultiEdit.run (MultiEdit.Tool p [MultiEdit.Op "" c all]) w)).
Proof.
  intros Hex Hc.
  destruct (absolute p) eqn:Habs.
  2:{ unfold Write.run, MultiEdit.run. cbn [Write.file_path MultiEdit.file_path].
      rewrite Habs. cbn. split; reflexivity. }
  assert (isdir w p = false) as Hdir.
  { unfold exists_, isdir in *. now destruct (lookup w p) as [[d|m]|]. }
  assert (String.eqb "" c = false) as Hne.
  { apply String.eqb_neq. congruence. }
  assert (forall X (a b : X), (if exists_ w p then a else b) = b) as Hif
    by (intros; now rewrite Hex).
  unfold MultiEdit.run.
  cbn [MultiEdit.file_path MultiEdit.edits MultiEdit.old_string MultiEdit.new_string
       MultiEdit.replace_all MultiEdit.validate MultiEdit.apply].
  rewrite Habs, Hex, Hne. cbn [negb andb Nat.eqb String.eqb app].
  destruct (WriteRunFacts.run_cases (Write.Tool p c) w Habs Hdir)
    as [(Hb & w1 & w2 & Hmk & Hw & Hrun)|(Hb & e & Hrun & _)];
    rewrite Hrun; cbn [fst snd Write.file_path Write.content] in *.
  - rewrite Hmk, Hw. cbn [fst snd]. split; [reflexivity|].
    rewrite Hex. reflexivity.
  - destruct (DirFacts.makedirs_blocked w (dirname p) Hb) as [e' ->]. cbn [fst snd].
    split; [reflexivity|]. now rewrite WriteRunFacts.os_error_failed.
Qed.

Lemma write_creates_as_multi_edit_witness :
  snd (Write.run (Write.Tool {| absolute := true; names := ["tmp"; "a.txt"] |} "hello")
                 {| root := ∅; written := [] |})
  = snd (MultiEdit.run
           (MultiEdit.Tool {| absolute := true; names := ["tmp"; "a.txt"] |}
                           [MultiEdit.Op "" "hello" false])
           {| root := ∅; written := [] |}).
Proof.
  refine (proj1 (write_creates_as_multi_edit
                   {| absolute := true; names := ["tmp"; "a.txt"] |} "hello" false
                   {| root := ∅; written := [] |} _ _)).
  - reflexivity.
  - discriminate.
Defined.

End WriteProperties.

Module ReadFacts.
Import Fs Read.

Lemma readlines_nil (s : string) : readlines s = [] <-> s = "".
Proof.
  split; [|now intros ->].
  destruct s as [|c s]; [reflexivity|]. cbn [readlines].
  destruct (Ascii.eqb c "010"); [discriminate|].
  destruct (readlines s); discriminate.
Qed.





Lemma output_lines_imap (start : Z) (selected : list string) : forall i,
  output_lines start i selected
  = imap (fun k line => numbered (start + Z.of_nat (i + k) + 1) line) selected.
Proof.
  induction selected as [|line rest IH]; intros i; [reflexivity|].
  cbn [output_lines imap]. rewrite Nat.add_0_r. f_equal.
  rewrite IH. apply imap_ext. intros k x _. cbn. do 2 f_equal. lia.
Qed.

(** What [run] returns on a file that is not empty. *)
Lemma run_shows (t : tool) (w : world string) (text : string) :
  absolute (file_path t) = true ->
  read w (file_path t) = inr text ->
  text <> "" ->
  run t w =
    header t (length (readlines text)) (length (selected_lines t (readlines text)))
      ++ Str.join Str.newline
           (imap (fun k line => numbered (start_line t + Z.of_nat k + 1) line)
                 (selected_lines t (readlines text))).
Proof.
  intros Habs Hread Hne. unfold run. rewrite Habs.
  assert (exists_ w (file_path t) = true /\ isfile w (file_path t) = true) as [-> ->].
  { unfold read, exists_, isfile in *.
    destruct (lookup w (file_path t)) as [[d|m]|]; try discriminate. now split. }
  cbn [negb]. rewrite Hread.
  destruct (readlines text) as [|l ls] eqn:Hl.
  { apply readlines_nil in Hl. contradiction. }
  now rewrite output_lines_imap.
Qed.



End ReadFacts.

Section ReadProperties.
Import Fs.







End ReadProperties.

Module ReadAnswerFacts.
#[local] Arguments String.append !_ _ /.
Import Fs Read.

Lemma header_starts (t : tool) (total shown : nat) :
  exists rest, header t total shown = "File: " ++ rest.
Proof.
  unfold header.
  destruct (given (offset t) || given (limit t)); [eauto|].
  destruct (Nat.ltb shown total); eauto.
Qed.

(** What [run] returns on a file that is not empty starts with the header. *)
Lemma run_starts (t : tool) (w : world string) (text : string) :
  absolute (file_path t) = true ->
  read w (file_path t) = inr text ->
  text <> "" ->
  exists rest, run t w = "File: " ++ rest.
Proof.
  intros Habs Hread Hne.
  rewrite (ReadFacts.run_shows t w text Habs Hread Hne).
  destruct (header_starts t (length (readlines text))
              (length (selected_lines t (readlines text)))) as [rest ->].
  rewrite StrFacts.append_assoc. eauto.
Qed.

Lemma run_empty (t : tool) (w : world string) :
  absolute (file_path t) = true ->
  read w (file_path t) = inr "" ->
  run t w = "File is empty.".
Proof.
  intros Habs Hread. unfold run. rewrite Habs.
  assert (exists_ w (file_path t) = true /\ isfile w (file_path t) = true) as [-> ->].
  { unfold read, exists_, isfile in *.
    destruct (lookup w (file_path t)) as [[d|m]|]; try discriminate. now split. }
  cbn [negb]. now rewrite Hread.
Qed.

Lemma read_isfile (w : world string) (p : path) :
  isfile w p = true <-> exists text, read w p = inr text.
Proof.
  unfold isfile, read. destruct (lookup w p) as [[d|m]|]; split;
    try discriminate; try (intros [? ?]; discriminate); eauto.
Qed.

End ReadAnswerFacts.

Section ReadAnswers.
Import Fs.

(** X23.  Read.py, the answers.  [run] returns an error exactly when the
    path is relative or is not a file that exists, and the note that the file
    is empty exactly on a file without content; no offset or limit makes it
    fail. *)
Theorem read_fails_iff (t : Read.tool) (w : world string) :
  (failed (Read.run t w) = true
   <-> absolute (Read.file_path t) = false \/ isfile w (Read.file_path t) = false)
  /\ (Read.run t w = "File is empty."
      <-> absolute (Read.file_path t) = true /\ read w (Read.file_path t) = inr "").
Proof.
  destruct (absolute (Read.file_path t)) eqn:Habs.
  2:{ unfold Read.run. rewrite Habs. cbn [negb]. split.
      - split; [auto | reflexivity].
      - split; [discriminate | intros [? _]; discriminate]. }
  destruct (isfile w (Read.file_path t)) eqn:Hfile.
  - destruct (proj1 (ReadAnswerFacts.read_isfile _ _) Hfile) as [text Hread].
    destruct (String.eqb_spec text "") as [->|Hne].
    + rewrite (ReadAnswerFacts.run_empty t w Habs Hread). split.
      * split; [discriminate | intros [?|?]; discriminate].
      * split; auto.
    + destruct (ReadAnswerFacts.run_starts t w text Habs Hread Hne) as [rest ->].
      split.
      * split; [discriminate | intros [?|?]; discriminate].
      * split; [discriminate | intros [_ H]; congruence].
  - assert (Read.run t w
            = (if exists_ w (Read.file_path t)
               then "Error: '" ++ show (Read.file_path t) ++ "' is not a file"
               else "Error: File '" ++ show (Read.file_path t) ++ "' does not exist"))
      as ->.
    { unfold Read.run. rewrite Habs, Hfile. cbn [negb].
      now destruct (exists_ w (Read.file_path t)). }
    split.
    + split; [auto|]. intros _. now destruct (exists_ w (Read.file_path t)).
    + split.
      * destruct (exists_ w (Read.file_path t)); discriminate.
      * intros [_ Hread].
        assert (isfile w (Read.file_path t) = true)
          by (apply ReadAnswerFacts.read_isfile; eauto).
        congruence.
Qed.

End ReadAnswers.

Module LsFacts.
Import Fs LS.

Lemma ascii_compare_eq (a b : ascii) : Ascii.compare a b = Eq -> a = b.
Proof. apply Ascii.compare_eq_iff. Qed.

Lemma ascii_compare_refl (a : ascii) : Ascii.compare a a = Eq.
Proof. unfold Ascii.compare. apply N.compare_refl. Qed.

Lemma ascii_compare_lt_trans (a b c : ascii) :
  Ascii.compare a b = Lt -> Ascii.compare b c = Lt -> Ascii.compare a c = Lt.
Proof.
  unfold Ascii.compare. rewrite !N.compare_lt_iff. apply N.lt_trans.
Qed.

Lemma compare_trans (a : string) : forall b c,
  String.compare a b <> Gt -> String.compare b c <> Gt -> String.compare a c <> Gt.
Proof.
  induction a as [|x a IH]; intros [|y b] [|z c]; cbn [String.compare];
    try congruence.
  destruct (Ascii.compare x y) eqn:Exy; [| |congruence];
    (destruct (Ascii.compare y z) eqn:Eyz; [| |congruence]).
  - apply ascii_compare_eq in Exy as ->. rewrite Eyz. apply IH.
  - apply ascii_compare_eq in Exy as ->. rewrite Eyz. congruence.
  - apply ascii_compare_eq in Eyz as <-. rewrite Exy. congruence.
  - rewrite (ascii_compare_lt_trans x y z Exy Eyz). congruence.
Qed.

Lemma leb_compare (a b : string) : le a b <-> String.compare a b <> Gt.
Proof.
  unfold le, String.leb. destruct (String.compare a b); split; congruence.
Qed.

#[local] Instance names_le_trans : Transitive le.
Proof. intros a b c. rewrite !leb_compare. apply compare_trans. Qed.

#[local] Instance names_le_antisym : AntiSymm eq le.
Proof. intros a b. apply String.leb_antisym. Qed.

Lemma names_le_total (a b : string) : le a b \/ le b a.
Proof. apply String.leb_total. Qed.

Lemma names_insert_perm (x : string) (l : list string) :
  insert_sorted x l ≡ₚ x :: l.
Proof.
  induction l as [|y l IH]; [reflexivity|]. cbn [insert_sorted].
  destruct (String.leb x y); [reflexivity|].
  rewrite IH. apply Permutation_swap.
Qed.

Lemma names_sort_perm (l : list string) : sort l ≡ₚ l.
Proof.
  induction l as [|x l IH]; [reflexivity|]. cbn [sort].
  now rewrite names_insert_perm, IH.
Qed.

Lemma names_insert_sorted (x : string) (l : list string) :
  StronglySorted le l -> StronglySorted le (insert_sorted x l).
Proof.
  induction l as [|y l IH]; intros Hs.
  - repeat constructor.
  - cbn [insert_sorted]. inversion Hs as [|? ? Hl Hy]; subst.
    destruct (String.leb x y) eqn:Hxy.
    + constructor; [exact Hs|]. constructor; [exact Hxy|].
      eapply Forall_impl; [exact Hy|]. intros z Hz. now transitivity y.
    + constructor; [now apply IH|].
      rewrite names_insert_perm. constructor; [|exact Hy].
      destruct (names_le_total x y) as [H|H]; [unfold le in H; congruence | exact H].
Qed.

Lemma names_sort_sorted (l : list string) : StronglySorted le (sort l).
Proof.
  induction l as [|x l IH]; [constructor|]. now apply names_insert_sorted.
Qed.

(** The sorted list does not depend on the order of what is sorted. *)
Lemma names_sort_unique (l l' : list string) : l ≡ₚ l' -> sort l = sort l'.
Proof.
  intros H. apply (StronglySorted_unique le); try apply names_sort_sorted.
  now rewrite !names_sort_perm.
Qed.

Lemma filter_bool_perm {A : Type} (f : A -> bool) (l l' : list A) :
  l ≡ₚ l' -> List.filter f l ≡ₚ List.filter f l'.
Proof.
  induction 1 as [|x l l' _ IH|x y l|l l' l'' _ IH _ IH']; cbn [List.filter].
  - reflexivity.
  - destruct (f x); [now constructor | exact IH].
  - destruct (f x), (f y); try reflexivity. apply Permutation_swap.
  - now transitivity (List.filter f l').
Qed.

Lemma elem_of_filter_bool {A : Type} (f : A -> bool) (l : list A) (x : A) :
  x ∈ List.filter f l <-> x ∈ l /\ f x = true.
Proof. rewrite !list_elem_of_In. apply filter_In. Qed.

Lemma NoDup_filter_bool {A : Type} (f : A -> bool) (l : list A) :
  NoDup l -> NoDup (List.filter f l).
Proof.
  induction 1 as [|x l Hx _ IH]; cbn [List.filter]; [constructor|].
  destruct (f x); [|exact IH]. constructor; [|exact IH].
  rewrite elem_of_filter_bool. tauto.
Qed.

Lemma elem_of_names_sort (l : list string) (x : string) : x ∈ sort l <-> x ∈ l.
Proof. now rewrite names_sort_perm. Qed.

Section Run.
Variable fnmatch : string -> string -> bool.

Lemma filtered_perm (t : tool) (l l' : list string) :
  l ≡ₚ l' -> filtered_entries fnmatch t l ≡ₚ filtered_entries fnmatch t l'.
Proof.
  intros H. unfold filtered_entries.
  destruct (ignore t) as [[|pattern patterns]|]; try exact H.
  now apply filter_bool_perm.
Qed.

Lemma elem_of_filtered (t : tool) (l : list string) (x : string) :
  x ∈ filtered_entries fnmatch t l <-> x ∈ l /\ ls_ignored fnmatch t x = false.
Proof.
  unfold filtered_entries, ls_ignored.
  destruct (ignore t) as [[|pattern patterns]|].
  - cbn. tauto.
  - rewrite elem_of_filter_bool, negb_true_iff. tauto.
  - tauto.
Qed.

Lemma NoDup_filtered (t : tool) (l : list string) :
  NoDup l -> NoDup (filtered_entries fnmatch t l).
Proof.
  intros H. unfold filtered_entries.
  destruct (ignore t) as [[|pattern patterns]|]; try exact H.
  now apply NoDup_filter_bool.
Qed.

End Run.

(** The entry [x] of a directory, seen from the root. *)
Lemma stat_snoc (l : list string) (x : string) : forall n : node string,
  stat n (l ++ [x])
  = match stat n l with
    | Some (Dir m) => m !! x
    | _ => None
    end.
Proof.
  induction l as [|y l IH]; intros n.
  - cbn. destruct n as [d|m]; [reflexivity|]. now destruct (m !! x).
  - cbn [app stat]. destruct n as [d|m]; [reflexivity|].
    destruct (m !! y) as [k|]; [apply IH | reflexivity].
Qed.

Lemma lookup_join (w : world string) (p : Fs.path) (m : gmap string (node string))
    (x : string) :
  lookup w p = Some (Dir m) -> lookup w (join p x) = m !! x.
Proof.
  unfold lookup, join. cbn [names]. intros H. now rewrite stat_snoc, H.
Qed.

Lemma elem_of_listdir (w : world string) (p : Fs.path) (m : gmap string (node string))
    (x : string) :
  lookup w p = Some (Dir m) -> x ∈ listdir w p <-> is_Some (m !! x).
Proof.
  intros H. unfold listdir. rewrite H, list_elem_of_fmap. split.
  - intros ([y k] & -> & Hk). apply elem_of_map_to_list in Hk. eauto.
  - intros [k Hk]. exists (x, k). split; [reflexivity|].
    now apply elem_of_map_to_list.
Qed.

Lemma NoDup_listdir (w : world string) (p : Fs.path) : NoDup (listdir w p).
Proof.
  unfold listdir. destruct (lookup w p) as [[d|m]|]; try constructor.
  apply NoDup_fst_map_to_list.
Qed.

End LsFacts.

Section LsProperties.
Import Fs.

(** X24.  LS.py, the order of the system.  What [run] lists does not depend on
    the order in which [os.listdir] gives the entries. *)
Theorem ls_any_order (fnmatch : string -> string -> bool) (t : LS.tool)
    (w : world string) (entries entries' : list string) :
  entries ≡ₚ entries' ->
  LS.output_lines fnmatch t w entries = LS.output_lines fnmatch t w entries'.
Proof.
  intros H. unfold LS.output_lines, LS.directories, LS.files.
  pose proof (LsFacts.filtered_perm fnmatch t _ _ H) as Hf.
  rewrite (LsFacts.names_sort_unique _ _
             (LsFacts.filter_bool_perm (fun entry => isdir w (LS.join (LS.path t) entry)) _ _ Hf)).
  rewrite (LsFacts.names_sort_unique _ _
             (LsFacts.filter_bool_perm
                (fun entry => negb (isdir w (LS.join (LS.path t) entry))) _ _ Hf)).
  reflexivity.
Qed.

Lemma ls_any_order_witness :
  LS.output_lines (fun _ _ => false) (LS.Tool (Path true []) None)
                  (World {[ "a" := File "x"; "b" := Dir ∅ ]} []) ["a"; "b"]
  = LS.output_lines (fun _ _ => false) (LS.Tool (Path true []) None)
                    (World {[ "a" := File "x"; "b" := Dir ∅ ]} []) ["b"; "a"].
Proof.
  apply (ls_any_order (fun _ _ => false) (LS.Tool (Path true []) None)
           (World {[ "a" := File "x"; "b" := Dir ∅ ]} []) ["a"; "b"] ["b"; "a"]).
  apply Permutation_swap.
Defined.

(** X25.  LS.py, what is listed.  On a directory, [run] lists the entries that no
    pattern of [ignore] matches, each once: the subdirectories, sorted, and
    after them the other entries, sorted. *)
Theorem ls_lists_children (fnmatch : string -> string -> bool) (t : LS.tool)
    (w : world string) :
  absolute (LS.path t) = true ->
  isdir w (LS.path t) = true ->
  let entries := LS.filtered_entries fnmatch t (LS.listdir w (LS.path t)) in
  let directories := LS.directories t w entries in
  let files := LS.files t w entries in
  LS.run fnmatch t w
    = Str.join Str.newline
        (["Contents of '" ++ show (LS.path t) ++ "':" ++ Str.newline]
           ++ (match directories, files with
               | [], [] => ["(empty directory)"]
               | _, _ => ((fun d => "  " ++ d ++ "/") <$> directories)
                           ++ ((fun f => "  " ++ f) <$> files)
               end)
           ++ (if Nat.ltb 0 (length directories + length files)
               then [Str.newline ++ "Total: " ++ pretty (length directories)
                       ++ " directories, " ++ pretty (length files) ++ " files"]
               else []))
  /\ StronglySorted LS.le directories
  /\ StronglySorted LS.le files
  /\ NoDup (directories ++ files)
  /\ forall x,
       (x ∈ directories
        <-> isdir w (LS.join (LS.path t) x) = true /\ ls_ignored fnmatch t x = false)
       /\ (x ∈ files
           <-> isfile w (LS.join (LS.path t) x) = true /\ ls_ignored fnmatch t x = false).
Proof.
  intros Habs Hdir entries directories files.
  assert (exists m, lookup w (LS.path t) = Some (Dir m)) as [m Hm].
  { unfold isdir in Hdir. destruct (lookup w (LS.path t)) as [[d|m]|]; try discriminate.
    eauto. }
  assert (forall x,
            (x ∈ directories
             <-> isdir w (LS.join (LS.path t) x) = true /\ ls_ignored fnmatch t x = false)
            /\ (x ∈ files
                <-> isfile w (LS.join (LS.path t) x) = true
                    /\ ls_ignored fnmatch t x = false)) as Hmem.
  { intros x. unfold directories, files, LS.directories, LS.files, entries.
    rewrite !LsFacts.elem_of_names_sort, !LsFacts.elem_of_filter_bool, !LsFacts.elem_of_filtered.
    rewrite (LsFacts.elem_of_listdir w _ m x Hm).
    unfold isdir, isfile. rewrite (LsFacts.lookup_join w _ m x Hm).
    destruct (m !! x) as [[d|m']|]; cbn; split; split;
      try (intros [[[k Hk] ?] ?]); try (intros [? ?]); try discriminate;
      try (split; [split|]); eauto; try reflexivity; try assumption. }
  split; [|split; [|split; [|split]]].
  - unfold LS.run. rewrite Habs, Hdir.
    assert (exists_ w (LS.path t) = true) as ->
      by (unfold exists_; now rewrite Hm).
    reflexivity.
  - apply LsFacts.names_sort_sorted.
  - apply LsFacts.names_sort_sorted.
  - apply NoDup_app. split; [|split].
    + unfold directories, LS.directories. rewrite LsFacts.names_sort_perm.
      apply LsFacts.NoDup_filter_bool, LsFacts.NoDup_filtered, LsFacts.NoDup_listdir.
    + intros x Hd Hf. apply Hmem in Hd. apply Hmem in Hf.
      destruct Hd as [Hd _], Hf as [Hf _]. unfold isdir, isfile in *.
      destruct (lookup w (LS.join (LS.path t) x)) as [[d|m']|]; discriminate.
    + unfold files, LS.files. rewrite LsFacts.names_sort_perm.
      apply LsFacts.NoDup_filter_bool, LsFacts.NoDup_filtered, LsFacts.NoDup_listdir.
  - exact Hmem.
Qed.

Lemma ls_lists_children_witness :
  LS.run (fun name pattern => String.eqb name pattern)
         (LS.Tool (Path true ["tmp"]) (Some ["skip"]))
         (World {[ "tmp" := Dir {[ "a" := File "x"; "b" := Dir ∅; "skip" := File "" ]} ]} [])
  = "Contents of '/tmp':" ++ Str.newline ++ Str.newline ++ "  b/" ++ Str.newline
      ++ "  a" ++ Str.newline ++ Str.newline ++ "Total: 1 directories, 1 files".
Proof.
  refine (eq_trans
            (proj1 (ls_lists_children (fun name pattern => String.eqb name pattern)
                      (LS.Tool (Path true ["tmp"]) (Some ["skip"]))
                      (World {[ "tmp" := Dir {[ "a" := File "x"; "b" := Dir ∅;
                                                "skip" := File "" ]} ]} []) _ _)) _).
  - reflexivity.
  - reflexivity.
  - reflexivity.
Defined.



End LsProperties.
